(** * r3k : the holdings-extraction engine of the N-CSR parsers

    A shallow embedding of [r3k/parse_new_ncsr.py] (the modern format
    generation) and [r3k/parse_old_ncsr.py] (the legacy one), and the
    properties of the engine that the specification states.

    Python values are modelled as follows.
    - [str] is a list of Unicode code points ([N]); [bytes] is a list of
      [Byte.byte].
    - A [bs4] tag is seen through what the parsers read of it: its [.text],
      and for a table or a page the texts of the descendants that
      [find_all] would return, in document order.
    - An exception is a value of [exn]; a function that may raise returns
      a [result].
    - A [dict] is an association list in insertion order, as Python
      iterates it.
    - Regular expressions are a small abstract syntax with a derivative
      matcher; every pattern of the source is written once, constructor by
      constructor. *)

From Stdlib Require Import String Ascii.
From Stdlib Require Import List Bool Arith NArith ZArith Lia.
From Stdlib Require Import Permutation Sorted.
Import ListNotations.

Set Implicit Arguments.

(* ================================================================== *)
(** ** Exceptions *)

Inductive exn : Type :=
| AssertionError
| IndexError
| KeyError
| ValueError
| TypeError
| AttributeError.

Inductive result (A : Type) : Type :=
| OK (a : A)
| Raise (e : exn).

Arguments OK {A} a.
Arguments Raise {A} e.

Definition bind {A B : Type} (m : result A) (k : A -> result B) : result B :=
  match m with
  | OK a => k a
  | Raise e => Raise e
  end.

Notation "x <- m ;; k" := (bind m (fun x => k))
  (at level 61, m at next level, right associativity).

(** [assert c] *)
Definition assert (c : bool) : result unit :=
  if c then OK tt else Raise AssertionError.

(** [l[i]] on a list *)
Definition index {A : Type} (l : list A) (i : nat) : result A :=
  match nth_error l i with
  | Some a => OK a
  | None => Raise IndexError
  end.

(* ================================================================== *)
(** ** Strings *)

Definition str : Type := list N.

(** An ASCII literal as a [str]. *)
Definition u (x : string) : str :=
  List.map N_of_ascii (list_ascii_of_string x).

Fixpoint str_eqb (a b : str) : bool :=
  match a, b with
  | [], [] => true
  | x :: a', y :: b' => N.eqb x y && str_eqb a' b'
  | _, _ => false
  end.

Definition mem_str (x : str) (l : list str) : bool := existsb (str_eqb x) l.

(** Code points that the source names by escape. *)
Definition NBSP : N := 160.       (* \xa0 *)
Definition X92 : N := 146.        (* \x92 *)
Definition X96 : N := 150.        (* \x96 *)
Definition X97 : N := 151.        (* \x97 *)
Definition EM_DASH : N := 8212.   (* U+2014 *)
Definition REGISTERED : N := 174. (* U+00AE *)
Definition SPACE : N := 32.
Definition COMMA : N := 44.

Definition between (lo hi c : N) : bool := N.leb lo c && N.leb c hi.

(** [str.isspace] on one code point, which is also what [\s] matches in a
    [str] pattern. *)
Definition isspace (c : N) : bool :=
  between 9 13 c || between 28 32 c || N.eqb c 133 || N.eqb c 160
  || N.eqb c 5760 || between 8192 8202 c || N.eqb c 8232 || N.eqb c 8233
  || N.eqb c 8239 || N.eqb c 8287 || N.eqb c 12288.

(** [0-9] *)
Definition isdigit09 (c : N) : bool := between 48 57 c.

Fixpoint lstrip (s : str) : str :=
  match s with
  | [] => []
  | c :: r => if isspace c then lstrip r else s
  end.

Fixpoint rstrip (s : str) : str :=
  match s with
  | [] => []
  | c :: r =>
      match rstrip r with
      | [] => if isspace c then [] else [c]
      | r' => c :: r'
      end
  end.

(** [s.strip()] *)
Definition strip (s : str) : str := rstrip (lstrip s).

Fixpoint starts_with (p s : str) : bool :=
  match p, s with
  | [], _ => true
  | x :: p', y :: s' => N.eqb x y && starts_with p' s'
  | _ :: _, [] => false
  end.

(** [old in s], for a non-empty [old] *)
Fixpoint contains (old s : str) : bool :=
  match s with
  | [] => starts_with old []
  | _ :: r => starts_with old s || contains old r
  end.

(** [s.replace(old, new)], also [re.sub(old, new, s)] when the pattern [old]
    is a literal; [old] is not empty.  [skip] counts the characters of a
    match still to be passed over. *)
Fixpoint replace_from (old new : str) (skip : nat) (s : str) : str :=
  match s with
  | [] => []
  | c :: r =>
      match skip with
      | S k => replace_from old new k r
      | O =>
          if starts_with old s
          then new ++ replace_from old new (length old - 1) r
          else c :: replace_from old new 0 r
      end
  end.

Definition replace (old new s : str) : str := replace_from old new 0 s.

(** [re.sub("\s+", rep, s)] : every maximal run of whitespace becomes [rep]. *)
Fixpoint sub_spaces (rep : str) (in_run : bool) (s : str) : str :=
  match s with
  | [] => []
  | c :: r =>
      if isspace c
      then (if in_run then [] else rep) ++ sub_spaces rep true r
      else c :: sub_spaces rep false r
  end.

(** [s.split(sep)], for a non-empty [sep] *)
Fixpoint split_from (sep : str) (skip : nat) (cur : str) (s : str) : list str :=
  match s with
  | [] => [cur]
  | c :: r =>
      match skip with
      | S k => split_from sep k cur r
      | O =>
          if starts_with sep s
          then cur :: split_from sep (length sep - 1) [] r
          else split_from sep 0 (cur ++ [c]) r
      end
  end.

Definition split (sep s : str) : list str := split_from sep 0 [] s.

(** [sep.join(parts)] *)
Fixpoint join (sep : str) (parts : list str) : str :=
  match parts with
  | [] => []
  | [p] => p
  | p :: ps => p ++ sep ++ join sep ps
  end.

(* ================================================================== *)
(** ** Regular expressions *)

Inductive regex : Type :=
| Void
| Eps
| Cls (f : N -> bool)
| Cat (r1 r2 : regex)
| Alt (r1 r2 : regex)
| Star (r : regex).

Fixpoint nullable (r : regex) : bool :=
  match r with
  | Void => false
  | Eps => true
  | Cls _ => false
  | Cat r1 r2 => nullable r1 && nullable r2
  | Alt r1 r2 => nullable r1 || nullable r2
  | Star _ => true
  end.

Fixpoint deriv (c : N) (r : regex) : regex :=
  match r with
  | Void => Void
  | Eps => Void
  | Cls f => if f c then Eps else Void
  | Cat r1 r2 =>
      if nullable r1
      then Alt (Cat (deriv c r1) r2) (deriv c r2)
      else Cat (deriv c r1) r2
  | Alt r1 r2 => Alt (deriv c r1) (deriv c r2)
  | Star r1 => Cat (deriv c r1) (Star r1)
  end.

(** No string matches [r], decided on the syntax (sound, not complete). *)
Fixpoint is_void (r : regex) : bool :=
  match r with
  | Void => true
  | Eps => false
  | Cls _ => false
  | Cat r1 r2 => is_void r1 || is_void r2
  | Alt r1 r2 => is_void r1 && is_void r2
  | Star _ => false
  end.

(** [re.match(r, s) is not None] : some prefix of [s] matches [r].  A regex
    that has become void is dropped at once. *)
Fixpoint re_match (r : regex) (s : str) : bool :=
  nullable r ||
  match s with
  | [] => false
  | c :: s' => let d := deriv c r in
               if is_void d then false else re_match d s'
  end.

Definition any_char : regex := Cls (fun _ => true).

(** [re.search(r, s) is not None] : a match may start anywhere. *)
Definition re_search (r : regex) (s : str) : bool :=
  re_match (Cat (Star any_char) r) s.

(** Lower case of an ASCII letter. *)
Definition ascii_lower (c : N) : N :=
  if between 65 90 c then (c + 32)%N else c.

(** A literal pattern character [p] against [c] under [re.IGNORECASE].  The
    patterns of the source are made of ASCII characters and of U+00AE;
    besides both cases of an ASCII letter, [i] matches U+0130 and U+0131,
    [s] matches U+017F and [k] matches U+212A. *)
Definition ci_eq (p c : N) : bool :=
  N.eqb (ascii_lower p) (ascii_lower c)
  || (N.eqb (ascii_lower p) 105 && (N.eqb c 304 || N.eqb c 305))
  || (N.eqb (ascii_lower p) 115 && N.eqb c 383)
  || (N.eqb (ascii_lower p) 107 && N.eqb c 8490).

(** A literal, case-sensitive or under [re.IGNORECASE]. *)
Fixpoint lit (ignorecase : bool) (p : str) : regex :=
  match p with
  | [] => Eps
  | c :: p' =>
      Cat (Cls (if ignorecase then ci_eq c else N.eqb c)) (lit ignorecase p')
  end.

Definition liti (x : string) : regex := lit true (u x).

(** [.*] under [re.DOTALL] *)
Definition dotstar : regex := Star any_char.
(** [\s+] *)
Definition spaces1 : regex := Cat (Cls isspace) (Star (Cls isspace)).
(** [r?] *)
Definition opt (r : regex) : regex := Alt Eps r.

Fixpoint cats (rs : list regex) : regex :=
  match rs with
  | [] => Eps
  | [r] => r
  | r :: rs' => Cat r (cats rs')
  end.

Fixpoint alts (rs : list regex) : regex :=
  match rs with
  | [] => Void
  | [r] => r
  | r :: rs' => Alt r (alts rs')
  end.

(* ================================================================== *)
(** ** What the Python runtime and pandas provide

    Three tables of the runtime are not part of the repository and are
    taken as given: the decimal value of a code point (what [int] accepts
    as a digit), [str.lower], and the date parser of [pd.Timestamp]. *)

(** A [pd.Timestamp]; [NaT] compares unequal to everything, itself
    included. *)
Inductive timestamp : Type :=
| NaT
| At (t : Z).

Definition timestamp_eqb (a b : timestamp) : bool :=
  match a, b with
  | At x, At y => Z.eqb x y
  | _, _ => false
  end.

Class PyRuntime : Type := {
  (** the decimal digit value of a code point, if it is a decimal digit;
      below 128 the decimal digits are [0] to [9] *)
  todecimal : N -> option N;
  (** [s.lower()] *)
  lower : str -> str;
  (** [pd.Timestamp(s)]; [None] when it raises *)
  Timestamp : str -> option timestamp
}.

(* ================================================================== *)
(** ** Text normalizer and cell parsers (the same in both modules) *)

(** [scrub_text] *)
Definition scrub_text (val : str) : str :=
  let val := replace [NBSP] [SPACE] val in
  let val := sub_spaces [SPACE] false val in
  let val := replace [X92] (u "'") val in
  val.

(** A tag, seen through its [.text]. *)
Definition Tag : Type := str.

(** [scrub_tag] *)
Definition scrub_tag (val : Tag) : str := strip (scrub_text (strip val)).

(** [empty_tag] *)
Definition empty_tag (val : Tag) : bool := str_eqb (scrub_tag val) [].

(** [nonempty_p], [nonempty_td] : from the texts of the tags that
    [find_all] returns. *)
Definition nonempty (tags : list Tag) : list Tag :=
  filter (fun t => negb (empty_tag t)) tags.

(** [parse_row] *)
Definition parse_row (row : list Tag) : list str :=
  List.map scrub_text
    (filter (fun td => negb (mem_str (scrub_tag td) [ []; u "$" ])) row).

(** The pattern ["[0-9]+"] *)
Definition digits1 : regex := Cat (Cls isdigit09) (Star (Cls isdigit09)).

(** [is_int] *)
Definition is_int (val : str) : bool :=
  let scrubbed := scrub_text (replace [COMMA] [] val) in
  re_match digits1 scrubbed.

(** The digits of an [int] literal: decimal digits, with single underscores
    between two digits only.  [acc] is the value so far, [prev_us] tells
    that the previous character was an underscore. *)
Fixpoint int_digits `{PyRuntime} (acc : N) (prev_us : bool) (s : str)
  : option N :=
  match s with
  | [] => if prev_us then None else Some acc
  | c :: r =>
      if N.eqb c 95
      then (if prev_us then None else int_digits acc true r)
      else match todecimal c with
           | Some d => int_digits (acc * 10 + d)%N false r
           | None => None
           end
  end.

Definition int_unsigned `{PyRuntime} (s : str) : option N :=
  match s with
  | [] => None
  | c :: _ => if N.eqb c 95 then None else int_digits 0%N false s
  end.

(** [int(s)] for a [str] : surrounding whitespace, an optional sign, the
    digits.  [parse_int] calls it on a text without whitespace.  A limit on
    the number of digits that some interpreters apply is not modelled. *)
Definition py_int `{PyRuntime} (s : str) : result Z :=
  let s := strip s in
  let r :=
    match s with
    | c :: ds =>
        if N.eqb c 45 (* - *)
        then option_map (fun n => Z.opp (Z.of_N n)) (int_unsigned ds)
        else if N.eqb c 43 (* + *)
        then option_map Z.of_N (int_unsigned ds)
        else option_map Z.of_N (int_unsigned s)
    | [] => None
    end in
  match r with
  | Some z => OK z
  | None => Raise ValueError
  end.

(** The cell texts that stand for an intentionally blank cell. *)
Definition placeholders : list str := [ [X96]; [X97]; u "(e)"; u "(f)" ].

(** What [parse_int] hands to the placeholder test and to [int]. *)
Definition parse_int_text (val : str) : str :=
  let val := replace [COMMA] [] (strip val) in
  sub_spaces [] false val.

(** [parse_int] : [None] is Python's [None]. *)
Definition parse_int `{PyRuntime} (val : str) : result (option Z) :=
  let val := parse_int_text val in
  if mem_str val placeholders then OK None
  else z <- py_int val ;; OK (Some z).

(* ================================================================== *)
(** ** Dictionaries, in insertion order *)

Section Dict.
Context {V : Type}.

Definition dict : Type := list (str * V).

(** [d.get(k)] *)
Fixpoint dict_get (d : dict) (k : str) : option V :=
  match d with
  | [] => None
  | (k', v) :: d' => if str_eqb k k' then Some v else dict_get d' k
  end.

(** [k in d] *)
Definition dict_mem (d : dict) (k : str) : bool :=
  match dict_get d k with Some _ => true | None => false end.

(** [d[k]] *)
Definition dict_item (d : dict) (k : str) : result V :=
  match dict_get d k with Some v => OK v | None => Raise KeyError end.

(** [d[k] = v] : a key already there keeps its place. *)
Fixpoint dict_set (d : dict) (k : str) (v : V) : dict :=
  match d with
  | [] => [(k, v)]
  | (k', v') :: d' =>
      if str_eqb k k' then (k', v) :: d' else (k', v') :: dict_set d' k v
  end.

(** [{**a, **b}] *)
Definition dict_merge (a b : dict) : dict :=
  fold_left (fun d kv => dict_set d (fst kv) (snd kv)) b a.

(** [d.pop(k)], the dictionary that is left *)
Fixpoint dict_pop (d : dict) (k : str) : dict :=
  match d with
  | [] => []
  | (k', v') :: d' => if str_eqb k k' then d' else (k', v') :: dict_pop d' k
  end.

End Dict.

Arguments dict V : clear implicits.

(* ================================================================== *)
(** ** Row classifier (parse_holdings_column) *)

(** A holding record: the dict with keys SECTOR, COMPANY_NAME, SHARES and
    VALUE. *)
Record Holding : Type := {
  SECTOR : option str;
  COMPANY_NAME : str;
  SHARES : option Z;
  VALUE : option Z
}.

(** What [parse_holdings_column] returns; the same four variables are the
    state of its loop. *)
Record ColumnResult : Type := {
  HOLDINGS : list Holding;
  SECTOR_TOTALS : dict (option Z);
  HIT_TOTAL_COMMON_STOCKS : bool;
  CURRENT_SECTOR : option str
}.

Definition TOTAL_COMMON_STOCKS : str := u "Total Common Stocks".

(** [".*common stocks.*"], DOTALL and IGNORECASE *)
Definition re_common_stocks_header : regex :=
  cats [dotstar; liti "common stocks"; dotstar].

(** [".*common.*stock"], DOTALL and IGNORECASE *)
Definition re_common_stock : regex :=
  cats [dotstar; liti "common"; dotstar; liti "stock"].

(** ['(\(a\)|\(b\)|\(c\)|\(d\)|\(e\)|\(f\))'], IGNORECASE *)
Definition re_footnote : regex :=
  alts [liti "(a)"; liti "(b)"; liti "(c)"; liti "(d)"; liti "(e)"; liti "(f)"].

(** A table column: for every [tr] that [col.find_all("tr")] returns, the
    [td] tags that [row.find_all("td")] returns. *)
Definition Column : Type := list (list Tag).

(** One turn of the loop that gathers the rows: a [tr] without a non-empty
    cell opens no new row. *)
Definition add_tr (rows : list (list Tag)) (tr : list Tag) : list (list Tag) :=
  let rows := match last rows [] with
              | [] => rows
              | _ :: _ => rows ++ [ [] ]
              end in
  removelast rows ++ [last rows [] ++ nonempty tr].

Definition gather_rows (col : Column) : list (list Tag) :=
  fold_left add_tr col [ [] ].

(** The three asserts on the heading row. *)
Definition check_heading (rows : list (list Tag)) : result unit :=
  r0 <- index rows 0 ;;
  c <- index r0 0 ;; _ <- assert (str_eqb (scrub_tag c) (u "Security")) ;;
  c <- index r0 1 ;; _ <- assert (str_eqb (scrub_tag c) (u "Shares")) ;;
  c <- index r0 2 ;; assert (str_eqb (scrub_tag c) (u "Value")).

(** The two asserts on the row under the heading of a first column. *)
Definition check_common_stocks (rows : list (list Tag)) : result unit :=
  r1 <- index rows 1 ;;
  _ <- assert (Nat.eqb (length r1) 1) ;;
  c <- index r1 0 ;;
  assert (re_match re_common_stocks_header c).

Inductive control : Type := Continue | Break.

Section Classifier.
Context `{PyRuntime}.

(** What the module does to a sector label before it becomes
    [current_sector]. *)
Variable label : str -> str.

Definition holding_row (st : ColumnResult) (name shares value : str)
  : result (control * ColumnResult) :=
  sh <- parse_int shares ;;
  va <- parse_int value ;;
  let record := {| SECTOR := CURRENT_SECTOR st;
                   COMPANY_NAME := strip name;
                   SHARES := sh;
                   VALUE := va |} in
  OK (Continue,
      {| HOLDINGS := HOLDINGS st ++ [record];
         SECTOR_TOTALS := SECTOR_TOTALS st;
         HIT_TOTAL_COMMON_STOCKS := HIT_TOTAL_COMMON_STOCKS st;
         CURRENT_SECTOR := CURRENT_SECTOR st |}).

(** The body of the loop over the rows, on the row already parsed by
    [parse_row]. *)
Definition classify (st : ColumnResult) (parsed_row : list str)
  : result (control * ColumnResult) :=
  match parsed_row with
  | [] => OK (Continue, st)
  | [f] =>
      if is_int f then
        match CURRENT_SECTOR st with
        | None => Raise AssertionError
        | Some current_sector =>
            _ <- assert (negb (dict_mem (SECTOR_TOTALS st) current_sector)) ;;
            total <- parse_int f ;;
            OK (if HIT_TOTAL_COMMON_STOCKS st then Break else Continue,
                {| HOLDINGS := HOLDINGS st;
                   SECTOR_TOTALS :=
                     dict_set (SECTOR_TOTALS st) current_sector total;
                   HIT_TOTAL_COMMON_STOCKS := HIT_TOTAL_COMMON_STOCKS st;
                   CURRENT_SECTOR := CURRENT_SECTOR st |})
        end
      else
        let current_sector := label f in
        OK (Continue,
            {| HOLDINGS := HOLDINGS st;
               SECTOR_TOTALS := SECTOR_TOTALS st;
               HIT_TOTAL_COMMON_STOCKS :=
                 if re_match re_common_stock current_sector then true
                 else HIT_TOTAL_COMMON_STOCKS st;
               CURRENT_SECTOR := Some current_sector |})
  | [_; f1] =>
      total <- parse_int f1 ;;
      OK (Break,
          {| HOLDINGS := HOLDINGS st;
             SECTOR_TOTALS :=
               dict_set (SECTOR_TOTALS st) TOTAL_COMMON_STOCKS total;
             HIT_TOTAL_COMMON_STOCKS := true;
             CURRENT_SECTOR := CURRENT_SECTOR st |})
  | [f0; f1; f2] => holding_row st f0 f1 f2
  | [f0; f1; f2; f3] =>
      _ <- assert (re_search re_footnote f3) ;;
      holding_row st f0 f1 f2
  | _ => Raise ValueError
  end.

(** The loop over [rows[start:]]. *)
Fixpoint classify_rows (st : ColumnResult) (rows : list (list Tag))
  : result ColumnResult :=
  match rows with
  | [] => OK st
  | row :: rest =>
      r <- classify st (parse_row row) ;;
      match fst r with
      | Break => OK (snd r)
      | Continue => classify_rows (snd r) rest
      end
  end.

(** [parse_holdings_column]; the modern module has no [check_header]
    argument and behaves as with [check_header = True]. *)
Definition parse_holdings_column (col : Column) (is_first_column : bool)
    (current_sector : option str) (check_header : bool)
  : result ColumnResult :=
  let rows := gather_rows col in
  _ <- (if check_header then check_heading rows else OK tt) ;;
  start <- (if is_first_column && check_header
            then (_ <- check_common_stocks rows ;; OK 2)
            else if check_header then OK 1 else OK 0) ;;
  classify_rows {| HOLDINGS := [];
                   SECTOR_TOTALS := [];
                   HIT_TOTAL_COMMON_STOCKS := false;
                   CURRENT_SECTOR := current_sector |}
                (skipn start rows).

End Classifier.

(* ================================================================== *)
(** ** Pages *)

(** A [table] tag: its rows as [parse_holdings_column] walks them, the
    texts of its [p] and of its [td] descendants, and [prettify()]. *)
Record Table : Type := {
  table_trs : Column;
  table_p : list Tag;
  table_td : list Tag;
  table_prettify : str
}.

(** The soup of one candidate page: [soup.text], the [table] tags of
    [find_all("table")], the [p] tags that [find_all()] meets before the
    first [table] tag, and all the [p] tags. *)
Record Page : Type := {
  page_text : str;
  page_tables : list Table;
  page_leading_p : list Tag;
  page_p : list Tag
}.

(** The header of a page: the dict with keys ETF_NAME and REPORT_DATE. *)
Record Header : Type := {
  ETF_NAME : str;
  REPORT_DATE : timestamp
}.

(** The result of a filing, with the field names of the specification. *)
Record FilingResult : Type := {
  etf_name : str;
  report_date : timestamp;
  holdings : list Holding
}.

(** [0 if h["VALUE"] is None else h["VALUE"]], and [fillna(0)] *)
Definition value_or_zero (h : Holding) : Z :=
  match VALUE h with Some v => v | None => 0%Z end.

(** [reported == derived], where [reported] may be [None] *)
Definition total_eqb (reported : option Z) (derived : Z) : bool :=
  match reported with Some t => Z.eqb t derived | None => false end.

Definition sum_values (hs : list Holding) : Z :=
  fold_right (fun h acc => (value_or_zero h + acc)%Z) 0%Z hs.

(** The holding is recorded under [sector]; in the legacy module this is
    the selection [df.SECTOR == sector]. *)
Definition in_sector (sector : str) (h : Holding) : bool :=
  match SECTOR h with
  | Some s => str_eqb s sector
  | None => false
  end.

(** [pd.Timestamp(report_date)] at the end of [parse_header_info] *)
Definition make_header `{PyRuntime} (etf_name report_date : str)
  : result Header :=
  match Timestamp report_date with
  | Some t => OK {| ETF_NAME := lower etf_name; REPORT_DATE := t |}
  | None => Raise ValueError
  end.

(* ================================================================== *)
(** ** The modern generation: parse_new_ncsr *)

Module New.

(** [parse_new_ncsr.normalize_sector] *)
Definition normalize_sector (sector : str) : str :=
  let sector := strip (replace (u "(continued)") [] sector) in
  let sector :=
    if contains (u "---") sector
    then strip (join (u "---") (removelast (split (u "---") sector)))
    else sector in
  strip sector.

(** [r".*schedule.*of.*investments.*russell.*3000"] *)
Definition soi : regex :=
  cats [dotstar; liti "schedule"; dotstar; liti "of"; dotstar;
        liti "investments"; dotstar; liti "russell"; dotstar; liti "3000"].
(** [".*summary.*schedule.*of.*investments.*"] *)
Definition smr : regex :=
  cats [dotstar; liti "summary"; dotstar; liti "schedule"; dotstar;
        liti "of"; dotstar; liti "investments"; dotstar].
(** ["notes\s+to\s+financial\s+statements"], the common part of the two
    patterns below *)
Definition notes_to : regex :=
  cats [liti "notes"; spaces1; liti "to"; spaces1; liti "financial"; spaces1;
        liti "statements"].
(** [".*notes\s+to\s+financial\s+statements.*"] *)
Definition nts : regex := cats [dotstar; notes_to; dotstar].
(** [".*see.{0,7}notes\s+to\s+financial\s+statements.*"] *)
Definition stn : regex :=
  cats [dotstar; liti "see";
        opt any_char; opt any_char; opt any_char; opt any_char;
        opt any_char; opt any_char; opt any_char;
        notes_to; dotstar].

(** The test of the loop at the end of [extract_pages]: the page is kept. *)
Definition relevant (p : Page) : bool :=
  let text := page_text p in
  if negb (re_match soi text) then false
  else if re_match smr text then false
  else if re_match nts text && negb (re_match stn text) then false
  else true.

(** [extract_pages], from the soups of the candidate pages *)
Definition extract_pages (candidates : list Page) : list Page :=
  filter relevant candidates.

(** [get_subversion] *)
Definition get_subversion (page : Page) : result Z :=
  let tables := page_tables page in
  match tables with
  | [t0; _; _] =>
      if negb (re_search soi (strip (table_prettify t0))) then OK 1%Z
      else OK 2%Z
  | [_; _; _; _] => OK 2%Z
  | _ => Raise ValueError
  end.

(** [extract_holdings_columns] *)
Definition extract_holdings_columns (page : Page) (version : Z)
  : result (list Table) :=
  let tables := page_tables page in
  if Z.eqb version 1 then OK (firstn 2 tables)
  else if Z.eqb version 2 then OK (firstn 2 (skipn 1 tables))
  else Raise ValueError.

(** ['.*schedule of investments.*'] *)
Definition re_title : regex :=
  cats [dotstar; liti "schedule of investments"; dotstar].

(** The fund names that [parse_header_info] accepts, in lower case. *)
Definition accepted_names : list str :=
  [ u "ishares" ++ [REGISTERED] ++ u " russell 3000 etf";
    u "ishares" ++ [REGISTERED] ++ u " russell 3000 index fund";
    u "ishares russell 3000 index fund" ].

(** The title, the fund name and the report date as [parse_header_info]
    picks them, before it validates them. *)
Definition header_cells (page : Page) (version : Z)
  : result (str * str * str) :=
  if Z.eqb version 1 then
    let tags := nonempty (page_leading_p page) in
    title <- index tags 0 ;;
    etf <- index tags 1 ;;
    date <- index tags 2 ;;
    OK (scrub_tag title, scrub_tag etf, scrub_tag date)
  else if Z.eqb version 2 then
    header <- index (page_tables page) 0 ;;
    let values := nonempty (table_p header) in
    if Nat.leb 3 (length values) then
      title <- index values 0 ;;
      date <- index values 1 ;;
      etf <- index values 2 ;;
      OK (scrub_tag title, scrub_tag etf, scrub_tag date)
    else
      let values := nonempty (table_td header) in
      title <- index values 0 ;;
      etf <- index values 1 ;;
      date <- index values 2 ;;
      OK (scrub_tag title, scrub_tag etf, scrub_tag date)
  else Raise ValueError.

Section WithRuntime.
Context `{PyRuntime}.

(** The two asserts of [parse_header_info] and its return. *)
Definition validate_header (cells : str * str * str) : result Header :=
  let '(title, etf, date) := cells in
  _ <- assert (re_match re_title title) ;;
  _ <- assert (mem_str (lower etf) accepted_names) ;;
  make_header etf date.

(** [parse_header_info] *)
Definition parse_header_info (page : Page) (version : Z) : result Header :=
  cells <- header_cells page version ;;
  validate_header cells.

(** [parse_holdings_column] : the label of a sector row has its [\x97]
    replaced. *)
Definition parse_holdings_column (col : Column) (is_first_column : bool)
    (current_sector : option str) : result ColumnResult :=
  parse_holdings_column (replace [X97] (u "---")) col is_first_column
    current_sector true.

(** What [parse_holdings_page] returns: the two keys of the header and the
    four keys of a column result. *)
Record PageResult : Type := {
  HEADER : Header;
  BODY : ColumnResult
}.

(** The loop of [parse_holdings_page] over the columns; [i] is the index of
    the column. *)
Fixpoint parse_columns (cols : list Table) (i : nat) (is_first_page : bool)
    (acc : ColumnResult) : result ColumnResult :=
  match cols with
  | [] => OK acc
  | col :: rest =>
      h <- parse_holdings_column (table_trs col)
             (Nat.eqb i 0 && is_first_page) (CURRENT_SECTOR acc) ;;
      let acc' := {| HOLDINGS := HOLDINGS acc ++ HOLDINGS h;
                     SECTOR_TOTALS :=
                       dict_merge (SECTOR_TOTALS acc) (SECTOR_TOTALS h);
                     HIT_TOTAL_COMMON_STOCKS := HIT_TOTAL_COMMON_STOCKS acc;
                     CURRENT_SECTOR := CURRENT_SECTOR h |} in
      if HIT_TOTAL_COMMON_STOCKS h
      then OK {| HOLDINGS := HOLDINGS acc';
                 SECTOR_TOTALS := SECTOR_TOTALS acc';
                 HIT_TOTAL_COMMON_STOCKS := true;
                 CURRENT_SECTOR := CURRENT_SECTOR acc' |}
      else parse_columns rest (S i) is_first_page acc'
  end.

(** [parse_holdings_page] *)
Definition parse_holdings_page (page : Page) (is_first_page : bool)
    (version : Z) (current_sector : option str) : result PageResult :=
  header <- parse_header_info page version ;;
  cols <- extract_holdings_columns page version ;;
  body <- parse_columns cols 0 is_first_page
            {| HOLDINGS := [];
               SECTOR_TOTALS := [];
               HIT_TOTAL_COMMON_STOCKS := false;
               CURRENT_SECTOR := current_sector |} ;;
  OK {| HEADER := header; BODY := body |}.

(** The first loop of [parse_filing], over the pages. *)
Fixpoint parse_pages (pages : list Page) (is_first_page : bool) (version : Z)
    (current_sector : option str) : result (list PageResult) :=
  match pages with
  | [] => OK []
  | page :: rest =>
      res <- parse_holdings_page page is_first_page version current_sector ;;
      if HIT_TOTAL_COMMON_STOCKS (BODY res) then OK [res]
      else
        more <- parse_pages rest false version (CURRENT_SECTOR (BODY res)) ;;
        OK (res :: more)
  end.

(** The variables of the second loop of [parse_filing]. *)
Record Aggregate : Type := {
  agg_holdings : list Holding;
  agg_sector_totals : dict (option Z);
  derived_sector_totals : dict Z;
  derived_common_totals : Z
}.

(** The inner loop, over the holdings of one page: the sector is
    normalized in the record, and its value added to the derived sums.
    [normalize_sector(None)] is a [TypeError] of [re.sub]. *)
Fixpoint derive (acc : Aggregate) (hs : list Holding) : result Aggregate :=
  match hs with
  | [] => OK acc
  | h :: rest =>
      match SECTOR h with
      | None => Raise TypeError
      | Some sector_name =>
          let sector_name := normalize_sector sector_name in
          let h' := {| SECTOR := Some sector_name;
                       COMPANY_NAME := COMPANY_NAME h;
                       SHARES := SHARES h;
                       VALUE := VALUE h |} in
          let val := value_or_zero h in
          let d := derived_sector_totals acc in
          derive
            {| agg_holdings := agg_holdings acc ++ [h'];
               agg_sector_totals := agg_sector_totals acc;
               derived_sector_totals :=
                 dict_set d sector_name
                   (match dict_get d sector_name with
                    | Some t => t | None => 0 end + val)%Z;
               derived_common_totals := (derived_common_totals acc + val)%Z |}
            rest
      end
  end.

(** The outer loop, over the page results; [prev] is [results[i-1]]. *)
Fixpoint aggregate (prev : option PageResult) (acc : Aggregate)
    (results : list PageResult) : result Aggregate :=
  match results with
  | [] => OK acc
  | r :: rest =>
      _ <- match prev with
           | None => OK tt
           | Some p =>
               _ <- assert (str_eqb (ETF_NAME (HEADER r))
                                    (ETF_NAME (HEADER p))) ;;
               assert (timestamp_eqb (REPORT_DATE (HEADER r))
                                     (REPORT_DATE (HEADER p)))
           end ;;
      acc' <- derive
                {| agg_holdings := agg_holdings acc;
                   agg_sector_totals :=
                     dict_merge (agg_sector_totals acc)
                                (SECTOR_TOTALS (BODY r));
                   derived_sector_totals := derived_sector_totals acc;
                   derived_common_totals := derived_common_totals acc |}
                (HOLDINGS (BODY r)) ;;
      aggregate (Some r) acc' rest
  end.

(** The loop over [sector_totals.items()] that validates the subtotals. *)
Fixpoint validate_sectors (derived : dict Z) (items : dict (option Z))
  : result unit :=
  match items with
  | [] => OK tt
  | (sector, total) :: rest =>
      d <- dict_item derived (normalize_sector sector) ;;
      _ <- assert (total_eqb total d) ;;
      validate_sectors derived rest
  end.

(** The second half of [parse_filing], from the page results on. *)
Definition reconcile (results : list PageResult) : result FilingResult :=
  agg <- aggregate None
           {| agg_holdings := [];
              agg_sector_totals := [];
              derived_sector_totals := [];
              derived_common_totals := 0 |} results ;;
  total <- dict_item (agg_sector_totals agg) TOTAL_COMMON_STOCKS ;;
  _ <- assert (total_eqb total (derived_common_totals agg)) ;;
  _ <- validate_sectors (derived_sector_totals agg)
         (dict_pop (agg_sector_totals agg) TOTAL_COMMON_STOCKS) ;;
  first <- index results 0 ;;
  OK {| etf_name := ETF_NAME (HEADER first);
        report_date := REPORT_DATE (HEADER first);
        holdings := agg_holdings agg |}.

(** The page results of a filing: the first half of [parse_filing]. *)
Definition page_results (candidates : list Page) : result (list PageResult) :=
  let pages := extract_pages candidates in
  first <- index pages 0 ;;
  version <- get_subversion first ;;
  parse_pages pages true version None.

(** [parse_filing], from the soups of the candidate pages *)
Definition parse_filing (candidates : list Page) : result FilingResult :=
  results <- page_results candidates ;;
  reconcile results.

End WithRuntime.
End New.

(* ================================================================== *)
(** ** The legacy generation: parse_old_ncsr *)

Module Old.

(** [parse_old_ncsr.normalize_sector] *)
Definition normalize_sector (sector : str) : str :=
  let sector := strip (replace (u "(continued)") [] sector) in
  let sector := replace [X96] (u "---") sector in
  let sector := replace [X97] (u "---") sector in
  let sector := replace (u "&nbsp;") (u " ") sector in
  let sector := replace [EM_DASH] (u "---") sector in
  let sector :=
    if contains (u "---") sector
    then strip (join (u "---") (removelast (split (u "---") sector)))
    else if contains (u " ") sector
    then strip (join (u " ") (removelast (split (u " ") sector)))
    else sector in
  strip sector.

(** [r".*schedule\s+of\s+investments.*"] *)
Definition soi : regex :=
  cats [dotstar; liti "schedule"; spaces1; liti "of"; spaces1;
        liti "investments"; dotstar].
(** [".*summary.*schedule.*of.*investments.*"] *)
Definition smr : regex := New.smr.
(** [r".*russell\s+3000\s+index\s+fund.*"] *)
Definition r3k : regex :=
  cats [dotstar; liti "russell"; spaces1; liti "3000"; spaces1;
        liti "index"; spaces1; liti "fund"; dotstar].
(** [r".*total.*common.*stocks.*"] *)
Definition cmn : regex :=
  cats [dotstar; liti "total"; dotstar; liti "common"; dotstar;
        liti "stocks"; dotstar].

(** The page opens the schedule: it sets [store]. *)
Definition opens_schedule (p : Page) : bool :=
  let text := page_text p in
  let is_soi := re_match soi text in
  let is_smr := re_match smr text in
  let is_r3k := re_match r3k text in
  is_soi && is_r3k && negb is_smr.

(** The loop at the end of [extract_pages], with its [store] flag. *)
Fixpoint keep_pages (store : bool) (pages : list Page) : list Page :=
  match pages with
  | [] => []
  | p :: rest =>
      let store := if opens_schedule p then true else store in
      if store
      then p :: (if re_match cmn (page_text p) then []
                 else keep_pages store rest)
      else keep_pages store rest
  end.

(** [extract_pages], from the soups of the candidate pages *)
Definition extract_pages (candidates : list Page) : list Page :=
  keep_pages false candidates.

(** ["schedule\s+of\s+investments"], IGNORECASE *)
Definition re_title : regex :=
  cats [liti "schedule"; spaces1; liti "of"; spaces1; liti "investments"].

(** ["iSHARES(R) RUSSELL 3000 INDEX FUND"] with U+00AE, IGNORECASE *)
Definition re_fund : regex :=
  lit true (u "iSHARES" ++ [REGISTERED] ++ u " RUSSELL 3000 INDEX FUND").

(** The title, the fund name and the report date as [parse_header_info]
    picks them, before it validates them. *)
Definition header_cells (page : Page) : result (str * str * str) :=
  let tags := nonempty (page_p page) in
  soi <- index tags 0 ;;
  etf <- index tags 1 ;;
  dat <- index tags 2 ;;
  OK (scrub_tag soi, scrub_tag etf, scrub_tag dat).

Section WithRuntime.
Context `{PyRuntime}.

(** The two asserts of [parse_header_info] and its return. *)
Definition validate_header (cells : str * str * str) : result Header :=
  let '(soi, etf, dat) := cells in
  _ <- assert (re_match re_title soi) ;;
  _ <- assert (re_match re_fund etf) ;;
  make_header etf dat.

(** [parse_header_info] *)
Definition parse_header_info (page : Page) : result Header :=
  cells <- header_cells page ;;
  validate_header cells.

(** [parse_holdings_column] : the label of a sector row is normalized. *)
Definition parse_holdings_column (col : Column) (is_first_column : bool)
    (current_sector : option str) (check_header : bool)
  : result ColumnResult :=
  parse_holdings_column normalize_sector col is_first_column current_sector
    check_header.

(** The loop over the tables of one page; the flag tells that the grand
    total was met, which also ends the loop over the pages. *)
Fixpoint parse_tables (tables : list Table) (first_page : bool)
    (current_sector : option str)
  : result (list ColumnResult * bool * option str) :=
  match tables with
  | [] => OK ([], false, current_sector)
  | table :: rest =>
      res <- parse_holdings_column (table_trs table) first_page
               current_sector first_page ;;
      if HIT_TOTAL_COMMON_STOCKS res
      then OK ([res], true, CURRENT_SECTOR res)
      else
        more <- parse_tables rest first_page (CURRENT_SECTOR res) ;;
        let '(results, hit_common, current_sector) := more in
        OK (res :: results, hit_common, current_sector)
  end.

(** The loop over the pages. *)
Fixpoint parse_pages (pages : list Page) (first_page : bool)
    (current_sector : option str) : result (list ColumnResult) :=
  match pages with
  | [] => OK []
  | page :: rest =>
      r <- parse_tables (page_tables page) first_page current_sector ;;
      let '(results, hit_common, current_sector) := r in
      if (hit_common : bool) then OK results
      else
        more <- parse_pages rest false current_sector ;;
        OK (results ++ more)
  end.

(** The loop over [sector_totals.items()] that validates the subtotals.
    The sum of a column of the data frame is taken as the exact sum of
    its integers. *)
Fixpoint validate_sectors (hs : list Holding) (items : dict (option Z))
  : result unit :=
  match items with
  | [] => OK tt
  | (sector, total) :: rest =>
      _ <- assert (total_eqb total (sum_values (filter (in_sector sector) hs))) ;;
      validate_sectors hs rest
  end.

(** [holdings] and [sector_totals] as the sanity check gathers them. *)
Definition all_holdings (results : list ColumnResult) : list Holding :=
  flat_map HOLDINGS results.

Definition all_sector_totals (results : list ColumnResult)
  : dict (option Z) :=
  fold_left (fun d res => dict_merge d (SECTOR_TOTALS res)) results [].

(** The sanity check of [parse_filing].  A data frame made of no record has
    no [VALUE] column: [df.VALUE] is an [AttributeError]. *)
Definition reconcile (header : Header) (results : list ColumnResult)
  : result FilingResult :=
  let holdings := all_holdings results in
  let sector_totals := all_sector_totals results in
  _ <- (match holdings with [] => Raise AttributeError | _ => OK tt end) ;;
  total <- dict_item sector_totals TOTAL_COMMON_STOCKS ;;
  _ <- assert (total_eqb total (sum_values holdings)) ;;
  _ <- validate_sectors holdings (dict_pop sector_totals TOTAL_COMMON_STOCKS) ;;
  OK {| etf_name := ETF_NAME header;
        report_date := REPORT_DATE header;
        holdings := holdings |}.

(** The column results of a filing: the loops of [parse_filing]. *)
Definition column_results (pages : list Page) : result (list ColumnResult) :=
  parse_pages pages true None.

(** [parse_filing], from the soups of the candidate pages *)
Definition parse_filing (candidates : list Page) : result FilingResult :=
  let pages := extract_pages candidates in
  first <- index pages 0 ;;
  header <- parse_header_info first ;;
  results <- column_results pages ;;
  reconcile header results.

End WithRuntime.
End Old.

(* ================================================================== *)
(** ** A concrete runtime *)

(** A runtime restricted to what is the same in every interpreter: ASCII
    digits and letters, and ISO dates [YYYY-MM-DD]. *)
Module Ascii_runtime.

Definition todecimal (c : N) : option N :=
  if isdigit09 c then Some (c - 48)%N else None.

Definition lower (s : str) : str := List.map ascii_lower s.

Fixpoint number (acc : N) (s : str) : option N :=
  match s with
  | [] => Some acc
  | c :: r => match todecimal c with
              | Some d => number (acc * 10 + d)%N r
              | None => None
              end
  end.

Definition leap (y : N) : bool :=
  (N.eqb (y mod 4) 0 && negb (N.eqb (y mod 100) 0)) || N.eqb (y mod 400) 0.

Definition days_in_month (y m : N) : N :=
  if N.eqb m 2 then (if leap y then 29 else 28)
  else if N.eqb m 4 || N.eqb m 6 || N.eqb m 9 || N.eqb m 11 then 30
  else 31.

(** The date as the number [YYYYMMDD]. *)
Definition Timestamp (s : str) : option timestamp :=
  match s with
  | [y1; y2; y3; y4; 45; m1; m2; 45; d1; d2] =>
      match number 0 [y1; y2; y3; y4], number 0 [m1; m2], number 0 [d1; d2] with
      | Some y, Some m, Some d =>
          if between 1 9999 y && between 1 12 m
             && between 1 (days_in_month y m) d
          then Some (At (Z.of_N (y * 10000 + m * 100 + d)))
          else None
      | _, _, _ => None
      end
  | _ => None
  end%N.

End Ascii_runtime.

#[export] Instance ascii_runtime : PyRuntime := {
  todecimal := Ascii_runtime.todecimal;
  lower := Ascii_runtime.lower;
  Timestamp := Ascii_runtime.Timestamp
}.


(* ================================================================== *)
(** ** Page segmentation (the first half of extract_pages, the same in
    both modules) *)

Definition bytes : Type := list Byte.byte.

Definition bytes_eq_dec : forall a b : bytes, {a = b} + {a <> b} :=
  list_eq_dec Byte.byte_eq_dec.

(** [buf[start:stop]] for two indices that are not negative *)
Definition slice {A : Type} (buf : list A) (start stop : nat) : list A :=
  firstn (stop - start) (skipn start buf).

Definition DQUOTE : Byte.byte := Byte.x22.
Definition SQUOTE : Byte.byte := Byte.x27.

(** [re.sub(a, b, sep)] for two patterns of one byte *)
Definition sub_byte (a b : Byte.byte) (sep : bytes) : bytes :=
  List.map (fun c => if Byte.eqb c a then b else c) sep.

(** [get_page_separators], from the set [page_separators] that its first
    loop finds in the soup of the filing: the set with both quotings of each
    separator.  A set is a list without repetition. *)
Definition get_page_separators (page_separators : list bytes) : list bytes :=
  let additional_page_separators :=
    flat_map (fun sep => [sub_byte DQUOTE SQUOTE sep;
                          sub_byte SQUOTE DQUOTE sep]) page_separators in
  nodup bytes_eq_dec (page_separators ++ additional_page_separators).

Fixpoint insert_sorted (x : nat) (l : list nat) : list nat :=
  match l with
  | [] => [x]
  | y :: l' => if Nat.leb x y then x :: l else y :: insert_sorted x l'
  end.

(** [sorted(matches, key=lambda x: x.start())], on the starts of the
    matches *)
Fixpoint sorted (l : list nat) : list nat :=
  match l with
  | [] => []
  | x :: l' => insert_sorted x (sorted l')
  end.

(** The loop that segments the pages: [buf[start:end]] for every pair of
    consecutive starts. *)
Fixpoint segment_pages {A : Type} (buf : list A) (starts : list nat)
  : list (list A) :=
  match starts with
  | [] => []
  | start :: rest =>
      match rest with
      | [] => []
      | stop :: _ => slice buf start stop :: segment_pages buf rest
      end
  end.

Section Segmenter.

(** [re.compile(sep, re.IGNORECASE).finditer(buf)], as the starts of the
    matches in the order of the iterator. *)
Variable finditer : bytes -> bytes -> list nat.

(** The starts of the matches of every matcher, sorted. *)
Definition page_breaks (seps : list bytes) (buf : bytes) : list nat :=
  sorted (flat_map (fun sep => finditer sep buf) seps).

(** The candidate pages of [extract_pages], from the separators found in
    the soup of the filing. *)
Definition candidate_pages (page_separators : list bytes) (buf : bytes)
  : list bytes :=
  segment_pages buf (page_breaks (get_page_separators page_separators) buf).

End Segmenter.

(** A matcher for a separator without special characters: the starts of
    its occurrences, left to right and without overlap, compared byte for
    byte. *)
Fixpoint byte_prefix (p s : bytes) : bool :=
  match p, s with
  | [], _ => true
  | x :: p', y :: s' => Byte.eqb x y && byte_prefix p' s'
  | _ :: _, [] => false
  end.

Fixpoint find_from (sep : bytes) (skip pos : nat) (buf : bytes) : list nat :=
  match buf with
  | [] => []
  | _ :: rest =>
      match skip with
      | S k => find_from sep k (S pos) rest
      | O => if byte_prefix sep buf
             then pos :: find_from sep (length sep - 1) (S pos) rest
             else find_from sep 0 (S pos) rest
      end
  end.

Definition find_literal (sep buf : bytes) : list nat :=
  match sep with
  | [] => []
  | _ :: _ => find_from sep 0 0 buf
  end.

Definition b (x : string) : bytes := list_byte_of_string x.

(* ================================================================== *)
(** ** Vocabulary of the properties, and sample filings *)

(** The string begins with one of [0] to [9]. *)
Definition head_digit (s : str) : bool :=
  match s with
  | c :: _ => isdigit09 c
  | [] => false
  end.

(** Whitespace-free strings *)
Definition no_space (s : str) : Prop := Forall (fun c => isspace c = false) s.

Definition no_holdings (current_sector : option str) : ColumnResult :=
  {| HOLDINGS := []; SECTOR_TOTALS := [];
     HIT_TOTAL_COMMON_STOCKS := false;
     CURRENT_SECTOR := current_sector |}.

(** The strings that the legacy normalizer rewrites or splits at. *)
Definition old_separators : list str :=
  [ u "(continued)"; [X96]; [X97]; u "&nbsp;"; [EM_DASH]; u "---"; u " " ].

(** The first table of the page matches the heading of the schedule. *)
Definition first_table_is_heading (page : Page) : bool :=
  match page_tables page with
  | t0 :: _ => re_search New.soi (strip (table_prettify t0))
  | [] => false
  end.

Definition empty_table : Table :=
  {| table_trs := []; table_p := []; table_td := []; table_prettify := [] |}.

(** The pages up to the first one with the grand total, that one
    included. *)
Fixpoint until_total (pages : list Page) : list Page :=
  match pages with
  | [] => []
  | p :: rest =>
      p :: (if re_match Old.cmn (page_text p) then [] else until_total rest)
  end.

Definition text_page (text : string) : Page :=
  {| page_text := u text; page_tables := []; page_leading_p := [];
     page_p := [] |}.

Definition cover_page : Page := text_page "Annual report to shareholders".
Definition schedule_page : Page :=
  text_page "Schedule of Investments iShares Russell 3000 Index Fund".
Definition notes_page : Page :=
  text_page "Notes to Financial Statements iShares Trust".

Definition fund_name (suffix : string) : str :=
  u "iShares" ++ [REGISTERED] ++ u " Russell 3000 Index Fund" ++ u suffix.

(** A page whose first three paragraphs are the title, a fund name and a
    date. *)
Definition header_page (name : str) : Page :=
  {| page_text := [];
     page_tables := [];
     page_leading_p := [u "Schedule of Investments"; name; u "2010-03-31"];
     page_p := [u "Schedule of Investments"; name; u "2010-03-31"] |}.

Definition heading_row : list Tag := [u "Security"; u "Shares"; u "Value"].

(** A legacy page: its first three paragraphs and one table; its text is
    the text of the paragraphs and of the cells. *)
Definition legacy_page (date : string) (rows : Column) : Page :=
  let paragraphs := [u "Schedule of Investments"; fund_name ""; u date] in
  {| page_text := join (u " ") (paragraphs ++ List.concat rows);
     page_tables := [ {| table_trs := rows; table_p := [];
                         table_td := List.concat rows;
                         table_prettify := join (u " ") (List.concat rows) |} ];
     page_leading_p := paragraphs;
     page_p := paragraphs |}.


(** The totals that a reconciliation accepts: the grand total is the sum of
    all the values, and every other reported subtotal is the sum of the
    values of the holdings of its sector, [norm] being what the module
    does to the reported label before it looks for the holdings. *)
Definition reconciled (norm : str -> str) (reported : dict (option Z))
    (hs : list Holding) : Prop :=
  dict_get reported TOTAL_COMMON_STOCKS = Some (Some (sum_values hs)) /\
  forall sector total,
    In (sector, total) (dict_pop reported TOTAL_COMMON_STOCKS) ->
    total = Some (sum_values (filter (in_sector (norm sector)) hs)).

(** The holding with its sector normalized, as [parse_filing] returns
    it. *)
Definition normalized (h : Holding) : Holding :=
  {| SECTOR := option_map New.normalize_sector (SECTOR h);
     COMPANY_NAME := COMPANY_NAME h;
     SHARES := SHARES h;
     VALUE := VALUE h |}.

(** The holdings and the reported totals of the page results. *)
Definition new_holdings (results : list New.PageResult) : list Holding :=
  List.map normalized (flat_map (fun r => HOLDINGS (New.BODY r)) results).

Definition new_reported (results : list New.PageResult) : dict (option Z) :=
  fold_left (fun d r => dict_merge d (SECTOR_TOTALS (New.BODY r))) results [].

(** The derived sums are the sums over the holdings gathered so far. *)
Definition derived_ok (acc : New.Aggregate) : Prop :=
  New.derived_common_totals acc = sum_values (New.agg_holdings acc) /\
  forall s,
    match dict_get (New.derived_sector_totals acc) s with
    | Some d => d
    | None => 0%Z
    end = sum_values (filter (in_sector s) (New.agg_holdings acc)).

Definition same_header (p r : New.PageResult) : Prop :=
  ETF_NAME (New.HEADER r) = ETF_NAME (New.HEADER p) /\
  REPORT_DATE (New.HEADER r) = REPORT_DATE (New.HEADER p).

(** A modern page of the first sub-version: three paragraphs, then the two
    columns and a third table. *)
Definition modern_page (date : string) (col1 col2 : Column) : Page :=
  let paragraphs :=
    [u "Schedule of Investments";
     u "iShares" ++ [REGISTERED] ++ u " Russell 3000 ETF"; u date] in
  let table rows :=
    {| table_trs := rows; table_p := []; table_td := List.concat rows;
       table_prettify := join (u " ") (List.concat rows) |} in
  {| page_text :=
       join (u " ") (paragraphs ++ List.concat col1 ++ List.concat col2);
     page_tables := [table col1; table col2; table []];
     page_leading_p := paragraphs;
     page_p := paragraphs |}.

Definition technology_column (subtotal : string) : Column :=
  [ heading_row;
    [u "Common Stocks"];
    [u "Technology"];
    [u "Acme Corp"; u "1,000"; u "50,000"];
    [u subtotal] ].

Definition energy_column (total : string) : Column :=
  [ heading_row;
    [u "Energy (continued)"];
    [u "Beta Inc"; u "500"; u "10,000"; u "(a)"];
    [u "10,000"];
    [u "Total Common Stocks"];
    [u total] ].

Definition acme : Holding :=
  {| SECTOR := Some (u "Technology"); COMPANY_NAME := u "Acme Corp";
     SHARES := Some 1000%Z; VALUE := Some 50000%Z |}.

Definition beta : Holding :=
  {| SECTOR := Some (u "Energy"); COMPANY_NAME := u "Beta Inc";
     SHARES := Some 500%Z; VALUE := Some 10000%Z |}.

Definition legacy_first_page : Page :=
  legacy_page "2010-03-31"
    [ heading_row;
      [u "Common Stocks"];
      [u "Technology" ++ [EM_DASH] ++ u "83.3%"];
      [u "Acme Corp"; u "1,000"; u "50,000"];
      [u "50,000"] ].

Definition legacy_second_page (date : string) : Page :=
  legacy_page date
    [ [u "Energy" ++ [EM_DASH] ++ u "16.7%"];
      [u "Beta Inc"; u "500"; u "10,000"];
      [u "10,000"];
      [u "Total Common Stocks"; u "60,000"] ].

(** The normal form of [scrub_text] : the only whitespace is the space,
    never two in a row, and there is no [\x92].  [after_space] tells that
    the character before is a space. *)
Fixpoint scrubbed_from (after_space : bool) (s : str) : bool :=
  match s with
  | [] => true
  | c :: r =>
      if isspace c
      then N.eqb c SPACE && negb after_space && scrubbed_from true r
      else negb (N.eqb c X92) && scrubbed_from false r
  end.

Definition scrubbed (s : str) : bool := scrubbed_from false s.

(** Neither a comma nor whitespace. *)
Definition significant (c : N) : bool := negb (N.eqb c COMMA) && negb (isspace c).

(** The row has a cell. *)
Definition has_cells (row : list Tag) : bool :=
  match row with
  | [] => false
  | _ :: _ => true
  end.

(** A table of which only the rows matter. *)
Definition rows_table (rows : Column) : Table :=
  {| table_trs := rows; table_p := []; table_td := List.concat rows;
     table_prettify := join (u " ") (List.concat rows) |}.

(** The grand total was met in one of the page results, in one of the
    column results. *)
Definition new_hit (results : list New.PageResult) : bool :=
  existsb (fun r => HIT_TOTAL_COMMON_STOCKS (New.BODY r)) results.

Definition old_hit (results : list ColumnResult) : bool :=
  existsb HIT_TOTAL_COMMON_STOCKS results.

(** A page that passes both page filters and holds nothing to parse. *)
Definition stray_page : Page :=
  {| page_text := u "Schedule of Investments iShares Russell 3000 Index Fund";
     page_tables := []; page_leading_p := []; page_p := [] |}.


(** A modern column with a sector that has a subtotal and no holding. *)
Definition empty_sector_column : Column :=
  [ heading_row;
    [u "Utilities"];
    [u "0"];
    [u "Energy (continued)"];
    [u "Beta Inc"; u "500"; u "10,000"; u "(a)"];
    [u "10,000"];
    [u "Total Common Stocks"];
    [u "60,000"] ].

(** A legacy first page without any holding. *)
Definition page_without_holdings : Page :=
  legacy_page "2010-03-31"
    [ heading_row;
      [u "Common Stocks"];
      [u "Total Common Stocks"; u "0"] ].

(** The keys of a dictionary are distinct. *)
Definition distinct_keys {V : Type} (d : dict V) : Prop :=
  NoDup (List.map fst d).

(** Two modern pages that both report a subtotal under [Technology]; the
    first subtotal is the sum of nothing. *)
Definition gamma : Holding :=
  {| SECTOR := Some (u "Technology"); COMPANY_NAME := u "Gamma Ltd";
     SHARES := Some 200%Z; VALUE := Some 10000%Z |}.

Definition repeated_sector_filing : list Page :=
  [ modern_page "2019-03-31" (technology_column "99,999") [heading_row];
    modern_page "2019-03-31"
      [ heading_row;
        [u "Technology"];
        [u "Gamma Ltd"; u "200"; u "10,000"];
        [u "60,000"];
        [u "Total Common Stocks"];
        [u "60,000"] ]
      [heading_row] ].


(** A modern page of the second sub-version whose heading table holds the
    title, the date and the name in three paragraphs. *)
Definition heading_table : Table :=
  {| table_trs := []; table_td := [];
     table_p := [u "Schedule of Investments"; u "2019-03-31";
                 u "iShares Russell 3000 ETF"];
     table_prettify := u "Schedule of Investments" |}.

Definition second_version_page : Page :=
  {| page_text := u "Schedule of Investments iShares Russell 3000 ETF";
     page_tables := [heading_table; rows_table [heading_row];
                     rows_table [heading_row]; empty_table];
     page_leading_p := []; page_p := table_p heading_table |}.

(* ================================================================== *)
(** * Properties *)


Unset Implicit Arguments.

Lemma str_eqb_eq (a b : str) : str_eqb a b = true <-> a = b.
Proof.
  revert b; induction a as [|x a IH]; intros [|y b]; simpl; split;
    try congruence; try reflexivity.
  - rewrite andb_true_iff, N.eqb_eq, IH. intros [-> ->]; reflexivity.
  - intros [= -> ->]. rewrite N.eqb_refl. apply IH. reflexivity.
Qed.

Lemma str_eqb_refl (a : str) : str_eqb a a = true.
Proof. apply str_eqb_eq; reflexivity. Qed.

(** ** Strings and cells *)

Ltac to_prop :=
  unfold isdigit09, isspace, between in *;
  rewrite ?orb_true_iff, ?andb_true_iff, ?orb_false_iff, ?andb_false_iff,
    ?N.eqb_eq, ?N.eqb_neq, ?N.leb_le, ?N.leb_gt in *.

Lemma digit_not_space (c : N) : isdigit09 c = true -> isspace c = false.
Proof. intros Hd. to_prop. lia. Qed.

Lemma head_digit_inv (s : str) :
  head_digit s = true -> exists d r, s = d :: r /\ isdigit09 d = true.
Proof. destruct s as [|d r]; simpl; [discriminate | eauto]. Qed.

Lemma replace1_cons (a : N) (new : str) (c : N) (r : str) :
  replace [a] new (c :: r) =
  if N.eqb a c then new ++ replace [a] new r else c :: replace [a] new r.
Proof.
  unfold replace; simpl. rewrite andb_true_r. reflexivity.
Qed.

Lemma head_digit_scrub_text (s : str) :
  head_digit (scrub_text s) = head_digit s.
Proof.
  destruct s as [|c r]; [reflexivity|].
  unfold scrub_text. rewrite replace1_cons.
  destruct (N.eqb_spec NBSP c) as [<-|Hn]; [reflexivity|].
  simpl sub_spaces.
  destruct (isspace c) eqn:Hs.
  - simpl. destruct (isdigit09 c) eqn:Hd; [|reflexivity].
    rewrite (digit_not_space _ Hd) in Hs. discriminate.
  - rewrite replace1_cons.
    destruct (N.eqb_spec X92 c) as [<-|Hx]; reflexivity.
Qed.

Lemma head_digit_replace_comma (s : str) :
  head_digit s = true -> head_digit (replace [COMMA] [] s) = true.
Proof.
  destruct s as [|c r]; [discriminate|]. simpl head_digit. intros Hd.
  rewrite replace1_cons.
  destruct (N.eqb_spec COMMA c) as [<-|Hx]; [discriminate | exact Hd].
Qed.

Lemma re_match_digits1 (s : str) : re_match digits1 s = head_digit s.
Proof.
  destruct s as [|c r]; [reflexivity|].
  simpl. destruct (isdigit09 c); simpl; [|reflexivity].
  destruct r; reflexivity.
Qed.

Lemma is_int_head_digit (s : str) :
  is_int s = head_digit (replace [COMMA] [] s).
Proof.
  unfold is_int. rewrite re_match_digits1. apply head_digit_scrub_text.
Qed.

Lemma lstrip_nonspace (c : N) (r : str) :
  isspace c = false -> lstrip (c :: r) = c :: r.
Proof. intros Hc; simpl; rewrite Hc; reflexivity. Qed.

Lemma rstrip_nonspace (c : N) (r : str) :
  isspace c = false -> rstrip (c :: r) = c :: rstrip r.
Proof. intros Hc; simpl; rewrite Hc; destruct (rstrip r); reflexivity. Qed.

Lemma strip_nonspace (c : N) (r : str) :
  isspace c = false -> strip (c :: r) = c :: rstrip r.
Proof.
  intros Hc; unfold strip. rewrite (lstrip_nonspace _ _ Hc).
  apply rstrip_nonspace, Hc.
Qed.

Lemma head_digit_strip (s : str) :
  head_digit s = true -> head_digit (strip s) = true.
Proof.
  destruct s as [|c r]; [discriminate|]. simpl head_digit. intros Hd.
  rewrite (strip_nonspace _ _ (digit_not_space _ Hd)). exact Hd.
Qed.

Lemma sub_spaces_no_space (in_run : bool) (s : str) :
  no_space (sub_spaces [] in_run s).
Proof.
  revert in_run; induction s as [|c r IH]; intros in_run; simpl.
  - constructor.
  - destruct (isspace c) eqn:Hc.
    + destruct in_run; simpl; apply IH.
    + constructor; [exact Hc | apply IH].
Qed.

Lemma rstrip_no_space (s : str) : no_space s -> rstrip s = s.
Proof.
  induction 1 as [|c r Hc Hr IH]; [reflexivity|].
  rewrite (rstrip_nonspace _ _ Hc), IH. reflexivity.
Qed.

Lemma strip_no_space (s : str) : no_space s -> strip s = s.
Proof.
  intros Hs. unfold strip. destruct Hs as [|c r Hc Hr]; [reflexivity|].
  rewrite (lstrip_nonspace _ _ Hc). apply rstrip_no_space.
  constructor; assumption.
Qed.

Lemma sub_spaces_cons_nonspace (rep : str) (b0 : bool) (c : N) (r : str) :
  isspace c = false ->
  sub_spaces rep b0 (c :: r) = c :: sub_spaces rep false r.
Proof. intros Hc; simpl; rewrite Hc; reflexivity. Qed.

Lemma head_digit_parse_int_text (s : str) :
  head_digit s = true -> head_digit (parse_int_text s) = true.
Proof.
  intros Hd. unfold parse_int_text.
  pose proof (head_digit_replace_comma _ (head_digit_strip _ Hd)) as H1.
  destruct (replace [COMMA] [] (strip s)) as [|c r]; [discriminate|].
  simpl in H1. rewrite (sub_spaces_cons_nonspace _ _ _ _ (digit_not_space _ H1)).
  exact H1.
Qed.

Lemma head_digit_not_placeholder (s : str) :
  head_digit s = true -> mem_str s placeholders = false.
Proof.
  destruct s as [|c r]; [discriminate|]. simpl head_digit. intros Hd.
  unfold mem_str, placeholders, X96, X97; simpl.
  destruct (N.eqb_spec c 150) as [->|]; [discriminate|].
  destruct (N.eqb_spec c 151) as [->|]; [discriminate|].
  destruct (N.eqb_spec c 40) as [->|]; [discriminate|].
  reflexivity.
Qed.

Section Cells.
Context `{PyRuntime}.

Lemma int_digits_not_numeric (s : str) (c : N) :
  In c s -> N.eqb c 95 = false -> todecimal c = None ->
  forall acc prev_us, int_digits acc prev_us s = None.
Proof.
  intros Hin Hus Hdec. induction s as [|x r IH]; [destruct Hin|].
  intros acc prev_us. simpl.
  destruct Hin as [->|Hin].
  - rewrite Hus, Hdec. reflexivity.
  - destruct (N.eqb x 95).
    + destruct prev_us; [reflexivity | apply IH, Hin].
    + destruct (todecimal x); [apply IH, Hin | reflexivity].
Qed.

Lemma parse_int_text_no_space (s : str) : no_space (parse_int_text s).
Proof. apply sub_spaces_no_space. Qed.

(** [parse_int] is [None] exactly on the placeholders. *)
Lemma parse_int_None (s : str) :
  parse_int s = OK None <-> mem_str (parse_int_text s) placeholders = true.
Proof.
  unfold parse_int. destruct (mem_str (parse_int_text s) placeholders).
  - split; reflexivity.
  - split; [|discriminate].
    destruct (py_int (parse_int_text s)); discriminate.
Qed.

Lemma parse_int_Some (s : str) (v : Z) :
  parse_int s = OK (Some v) <->
  mem_str (parse_int_text s) placeholders = false /\
  py_int (parse_int_text s) = OK v.
Proof.
  unfold parse_int. destruct (mem_str (parse_int_text s) placeholders).
  - split; [discriminate | intros [? _]; discriminate].
  - destruct (py_int (parse_int_text s)); simpl; split.
    + intros [= ->]. split; reflexivity.
    + intros [_ [= ->]]. reflexivity.
    + discriminate.
    + intros [_ ?]; discriminate.
Qed.

(** A value that [int] returns is negative only behind a minus sign. *)
Lemma py_int_sign (s : str) (v : Z) :
  py_int s = OK v ->
  match strip s with
  | c :: _ => if N.eqb c 45 then (v <= 0)%Z else (0 <= v)%Z
  | [] => False
  end.
Proof.
  unfold py_int. destruct (strip s) as [|c ds]; [discriminate|].
  destruct (N.eqb c 45).
  - destruct (int_unsigned ds); simpl; [|discriminate]. intros [= <-]. lia.
  - destruct (N.eqb c 43).
    + destruct (int_unsigned ds); simpl; [|discriminate]. intros [= <-]. lia.
    + destruct (int_unsigned (c :: ds)); simpl; [|discriminate].
      intros [= <-]. lia.
Qed.

(** A cell that begins with a digit and holds a character that is neither
    a decimal digit nor an underscore is a value-parse error. *)
Lemma parse_int_head_digit_not_numeric (f : str) (c : N) :
  head_digit f = true ->
  In c (parse_int_text f) -> N.eqb c 95 = false -> todecimal c = None ->
  parse_int f = Raise ValueError.
Proof.
  intros Hd Hin Hus Hdec.
  pose proof (head_digit_parse_int_text _ Hd) as Hh.
  unfold parse_int. rewrite (head_digit_not_placeholder _ Hh).
  unfold py_int. rewrite (strip_no_space _ (parse_int_text_no_space f)).
  destruct (parse_int_text f) as [|d r] eqn:Ht; [discriminate|].
  simpl in Hh.
  assert (N.eqb d 45 = false /\ N.eqb d 43 = false /\ N.eqb d 95 = false)
    as (H45 & H43 & H95) by (to_prop; lia).
  rewrite H45, H43. unfold int_unsigned. rewrite H95.
  rewrite (int_digits_not_numeric _ c Hin Hus Hdec). reflexivity.
Qed.

End Cells.

Section Classifier_facts.
Context `{PyRuntime}.
Variable label : str -> str.

Lemma parse_row_head_digit (td : Tag) :
  head_digit td = true -> parse_row [td] = [scrub_text td].
Proof.
  intros Hd. unfold parse_row. simpl filter.
  assert (head_digit (scrub_tag td) = true) as Hs.
  { unfold scrub_tag. apply head_digit_strip.
    rewrite head_digit_scrub_text. apply head_digit_strip, Hd. }
  destruct (scrub_tag td) as [|d r]; [discriminate|]. simpl in Hs.
  unfold mem_str; simpl.
  destruct (N.eqb_spec d 36) as [->|]; [discriminate|]. reflexivity.
Qed.

(** What the subtotal branch of [classify] does. *)
Lemma classify_subtotal (st : ColumnResult) (f : str) :
  is_int f = true ->
  classify label st [f] =
  match CURRENT_SECTOR st with
  | None => Raise AssertionError
  | Some current_sector =>
      if dict_mem (SECTOR_TOTALS st) current_sector then Raise AssertionError
      else
        total <- parse_int f ;;
        OK (if HIT_TOTAL_COMMON_STOCKS st then Break else Continue,
            {| HOLDINGS := HOLDINGS st;
               SECTOR_TOTALS := dict_set (SECTOR_TOTALS st) current_sector total;
               HIT_TOTAL_COMMON_STOCKS := HIT_TOTAL_COMMON_STOCKS st;
               CURRENT_SECTOR := CURRENT_SECTOR st |})
  end.
Proof.
  intros Hi. unfold classify. rewrite Hi.
  destruct (CURRENT_SECTOR st); [|reflexivity].
  destruct (dict_mem (SECTOR_TOTALS st) s); reflexivity.
Qed.

(** What the label branch of [classify] does. *)
Lemma classify_label (st : ColumnResult) (f : str) :
  is_int f = false ->
  classify label st [f] =
  OK (Continue,
      {| HOLDINGS := HOLDINGS st;
         SECTOR_TOTALS := SECTOR_TOTALS st;
         HIT_TOTAL_COMMON_STOCKS :=
           if re_match re_common_stock (label f) then true
           else HIT_TOTAL_COMMON_STOCKS st;
         CURRENT_SECTOR := Some (label f) |}).
Proof. intros Hi. unfold classify. rewrite Hi. reflexivity. Qed.

End Classifier_facts.

(** ** C10 : is_int looks at the first character only *)

(** C10.  [is_int(s)] is true exactly when [s] without its commas begins
    with one of the digits [0] to [9].  Hence a row of one cell whose text
    begins with a digit is kept by [parse_row], passes [is_int], and is
    handled as a sector subtotal, in either module (any [label]): when the
    classifier goes on, the current sector and the holdings are as before
    and the subtotal is recorded under the current sector, so the text is
    never recorded as a label.  When moreover the rest of the text holds a
    character that is neither a decimal digit nor an underscore,
    [parse_int] raises [ValueError] and the classifier raises. *)
Theorem is_int_leading_digit `{PyRuntime} (label : str -> str) :
  (forall s : str,
      is_int s = true <-> head_digit (replace [COMMA] [] s) = true) /\
  (forall (st : ColumnResult) (td : Tag),
      head_digit td = true ->
      parse_row [td] = [scrub_text td] /\
      is_int (scrub_text td) = true /\
      (forall c st',
          classify label st [scrub_text td] = OK (c, st') ->
          CURRENT_SECTOR st' = CURRENT_SECTOR st /\
          HOLDINGS st' = HOLDINGS st /\
          exists current_sector total,
            CURRENT_SECTOR st = Some current_sector /\
            parse_int (scrub_text td) = OK total /\
            SECTOR_TOTALS st' =
              dict_set (SECTOR_TOTALS st) current_sector total) /\
      (forall x : N,
          In x (parse_int_text (scrub_text td)) ->
          N.eqb x 95 = false -> todecimal x = None ->
          parse_int (scrub_text td) = Raise ValueError /\
          exists e, classify label st [scrub_text td] = Raise e)).
Proof.
  split.
  - intros s. rewrite is_int_head_digit. reflexivity.
  - intros st td Hd.
    assert (head_digit (scrub_text td) = true) as Hf
      by (rewrite head_digit_scrub_text; exact Hd).
    assert (is_int (scrub_text td) = true) as Hi
      by (rewrite is_int_head_digit; apply head_digit_replace_comma, Hf).
    split; [apply parse_row_head_digit, Hd|]. split; [exact Hi|]. split.
    + intros c st'. rewrite (classify_subtotal label st _ Hi).
      destruct (CURRENT_SECTOR st) as [cs|] eqn:Hcs; [|discriminate].
      destruct (dict_mem (SECTOR_TOTALS st) cs); [discriminate|].
      destruct (parse_int (scrub_text td)) as [total|]; [|discriminate].
      simpl. intros [= <- <-]. simpl.
      repeat split. exists cs, total. repeat split.
    + intros x Hin Hus Hdec.
      pose proof (parse_int_head_digit_not_numeric _ x Hf Hin Hus Hdec) as Hp.
      split; [exact Hp|].
      rewrite (classify_subtotal label st _ Hi), Hp.
      destruct (CURRENT_SECTOR st) as [cs|]; [|eauto].
      destruct (dict_mem (SECTOR_TOTALS st) cs); simpl; eauto.
Qed.

(** The row [3M Co] under the sector [Tech]: a subtotal, and a
    [ValueError]. *)
Lemma is_int_leading_digit_witness :
  head_digit (u "3M Co") = true /\
  parse_int (u "3M Co") = Raise ValueError /\
  exists e,
    classify (replace [X97] (u "---"))
      {| HOLDINGS := []; SECTOR_TOTALS := [];
         HIT_TOTAL_COMMON_STOCKS := false;
         CURRENT_SECTOR := Some (u "Tech") |}
      [scrub_text (u "3M Co")] = Raise e.
Proof.
  split; [reflexivity|].
  refine ((fun P => conj (proj1 P) (proj2 P))
    (proj2 (proj2 (proj2
      (proj2 (is_int_leading_digit (replace [X97] (u "---")))
         {| HOLDINGS := []; SECTOR_TOTALS := [];
            HIT_TOTAL_COMMON_STOCKS := false;
            CURRENT_SECTOR := Some (u "Tech") |}
         (u "3M Co") eq_refl)))
      77%N _ eq_refl eq_refl)).
  vm_compute. auto.
Defined.

(** ** C7 : null values and the sign of the others *)

Section Holding_rows.
Context `{PyRuntime}.

Lemma holding_row_inv (st st' : ColumnResult) (c : control)
    (name shares value : str) :
  holding_row st name shares value = OK (c, st') ->
  exists sh va,
    parse_int shares = OK sh /\ parse_int value = OK va /\
    c = Continue /\
    HOLDINGS st' = HOLDINGS st ++
      [{| SECTOR := CURRENT_SECTOR st; COMPANY_NAME := strip name;
          SHARES := sh; VALUE := va |}] /\
    SECTOR_TOTALS st' = SECTOR_TOTALS st /\
    HIT_TOTAL_COMMON_STOCKS st' = HIT_TOTAL_COMMON_STOCKS st /\
    CURRENT_SECTOR st' = CURRENT_SECTOR st.
Proof.
  unfold holding_row.
  destruct (parse_int shares) as [sh|]; [|discriminate].
  destruct (parse_int value) as [va|]; [|discriminate].
  simpl. intros [= <- <-]. exists sh, va. simpl. repeat split.
Qed.

Lemma parse_int_field (s : str) (r : option Z) :
  parse_int s = OK r ->
  (r = None <-> mem_str (parse_int_text s) placeholders = true) /\
  (forall v, r = Some v ->
     py_int (parse_int_text s) = OK v /\
     ((v < 0)%Z -> exists rest, parse_int_text s = 45%N :: rest)).
Proof.
  intros Hp. split.
  - rewrite <- parse_int_None, Hp. split; congruence.
  - intros v ->. apply parse_int_Some in Hp. destruct Hp as [_ Hp].
    split; [exact Hp|]. intros Hneg.
    apply py_int_sign in Hp.
    rewrite (strip_no_space _ (parse_int_text_no_space s)) in Hp.
    destruct (parse_int_text s) as [|c rest]; [contradiction|].
    destruct (N.eqb_spec c 45) as [->|]; [eauto | lia].
Qed.

End Holding_rows.

(** C7, as the code has it.  For every holding record that the row
    classifier produces, from a row of three cells or of four, in either
    module: SHARES (VALUE) is null exactly when the cell text, stripped,
    without its commas and without any whitespace, is one of the four
    placeholders; otherwise it is what [int] makes of that text, and it is
    negative only when that text begins with a minus sign. *)
Theorem holding_null_iff_placeholder `{PyRuntime} (label : str -> str)
    (st st' : ColumnResult) (c : control) (parsed_row : list str)
    (name shares value : str) :
  parsed_row = [name; shares; value] \/
  (exists footnote, parsed_row = [name; shares; value; footnote]) ->
  classify label st parsed_row = OK (c, st') ->
  exists h,
    HOLDINGS st' = HOLDINGS st ++ [h] /\
    (SHARES h = None <->
       mem_str (parse_int_text shares) placeholders = true) /\
    (VALUE h = None <->
       mem_str (parse_int_text value) placeholders = true) /\
    (forall v, SHARES h = Some v ->
       py_int (parse_int_text shares) = OK v /\
       ((v < 0)%Z -> exists rest, parse_int_text shares = 45%N :: rest)) /\
    (forall v, VALUE h = Some v ->
       py_int (parse_int_text value) = OK v /\
       ((v < 0)%Z -> exists rest, parse_int_text value = 45%N :: rest)).
Proof.
  intros Hrow Hc.
  assert (holding_row st name shares value = OK (c, st')) as Hh.
  { destruct Hrow as [->|[fn ->]]; [exact Hc|].
    simpl in Hc. destruct (assert (re_search re_footnote fn)); [|discriminate].
    exact Hc. }
  apply holding_row_inv in Hh.
  destruct Hh as (sh & va & Hsh & Hva & _ & Hhold & _).
  eexists; split; [exact Hhold|]. simpl.
  destruct (parse_int_field _ _ Hsh) as [Hs1 Hs2].
  destruct (parse_int_field _ _ Hva) as [Hv1 Hv2].
  repeat split; try apply Hs1; try apply Hv1; auto;
    try (apply Hs2; assumption); try (apply Hv2; assumption).
Qed.

(** The row [Beta Inc | 500 | (e) | (a)] : the value is null. *)
Lemma holding_null_iff_placeholder_witness :
  exists h,
    [h] = [{| SECTOR := Some (u "Technology"); COMPANY_NAME := u "Beta Inc";
              SHARES := Some 500%Z; VALUE := None |}] /\
    (VALUE h = None <->
       mem_str (parse_int_text (u "(e)")) placeholders = true).
Proof.
  assert (classify (replace [X97] (u "---"))
            (no_holdings (Some (u "Technology")))
            [u "Beta Inc"; u "500"; u "(e)"; u "(a)"] =
          OK (Continue,
              {| HOLDINGS := [{| SECTOR := Some (u "Technology");
                                 COMPANY_NAME := u "Beta Inc";
                                 SHARES := Some 500%Z; VALUE := None |}];
                 SECTOR_TOTALS := []; HIT_TOTAL_COMMON_STOCKS := false;
                 CURRENT_SECTOR := Some (u "Technology") |})) as Hc
    by (vm_compute; reflexivity).
  destruct (holding_null_iff_placeholder _ _ _ _ _
              (u "Beta Inc") (u "500") (u "(e)")
              (or_intror (ex_intro _ (u "(a)") eq_refl)) Hc)
    as (h & Hh & _ & Hv & _).
  exists h. split; [symmetry; exact Hh | exact Hv].
Defined.

(** C7, as stated, fails: a cell [-5] is no placeholder, and the holding
    gets the value [-5]. *)
Lemma negative_value_counterexample :
  exists r h,
    New.parse_holdings_column
      [ [u "Security"; u "Shares"; u "Value"];
        [u "Acme Corp"; u "1,000"; u "-5"] ]
      false (Some (u "Technology")) = OK r /\
    In h (HOLDINGS r) /\
    mem_str (parse_int_text (u "-5")) placeholders = false /\
    VALUE h = Some (-5)%Z /\
    ~ (0 <= -5)%Z.
Proof.
  eexists. eexists. split; [vm_compute; reflexivity|].
  split; [left; reflexivity|].
  split; [reflexivity|]. split; [reflexivity | lia].
Qed.

(** ** C8 : normalizing a sector label twice *)

Lemma replace_from_absent (old new s : str) :
  contains old s = false -> replace_from old new 0 s = s.
Proof.
  induction s as [|c r IH]; [reflexivity|]. simpl contains.
  intros Hc. apply orb_false_iff in Hc. destruct Hc as [Hp Hr].
  simpl replace_from. rewrite Hp, (IH Hr). reflexivity.
Qed.

Lemma replace_absent (old new s : str) :
  contains old s = false -> replace old new s = s.
Proof. apply replace_from_absent. Qed.

Lemma rstrip_idempotent (s : str) : rstrip (rstrip s) = rstrip s.
Proof.
  induction s as [|c r IH]; [reflexivity|]. simpl.
  destruct (rstrip r) as [|d r'] eqn:Hr.
  - destruct (isspace c) eqn:Hc; [reflexivity|]. simpl. rewrite Hc. reflexivity.
  - change (rstrip (c :: d :: r')) with
      (match rstrip (d :: r') with
       | [] => if isspace c then [] else [c]
       | x :: r'' => c :: x :: r''
       end).
    rewrite IH. reflexivity.
Qed.

Lemma lstrip_head (s : str) :
  lstrip s = [] \/ exists c r, lstrip s = c :: r /\ isspace c = false.
Proof.
  induction s as [|c r IH]; [left; reflexivity|]. simpl.
  destruct (isspace c) eqn:Hc; [exact IH | right; eauto].
Qed.

Lemma strip_idempotent (s : str) : strip (strip s) = strip s.
Proof.
  unfold strip. destruct (lstrip_head s) as [->|(c & r & -> & Hc)];
    [reflexivity|].
  rewrite (rstrip_nonspace _ _ Hc), (lstrip_nonspace _ _ Hc).
  rewrite (rstrip_nonspace _ _ Hc), rstrip_idempotent. reflexivity.
Qed.

(** C8, as the code has it.  A normalized label is a fixed point of the
    normalizer when it holds nothing that the normalizer would act on
    again: no [(continued)] and no [---] for the modern module; for the
    legacy module also none of [\x96], [\x97], [&nbsp;], the em dash and
    the space. *)
Theorem normalize_sector_fixed_point (s : str) :
  (contains (u "(continued)") (New.normalize_sector s) = false ->
   contains (u "---") (New.normalize_sector s) = false ->
   New.normalize_sector (New.normalize_sector s) = New.normalize_sector s) /\
  (Forall (fun sep => contains sep (Old.normalize_sector s) = false)
     old_separators ->
   Old.normalize_sector (Old.normalize_sector s) = Old.normalize_sector s).
Proof.
  split.
  - assert (exists x, New.normalize_sector s = strip x) as [x Hx]
      by (unfold New.normalize_sector; eauto).
    intros Hc Hd. rewrite Hx in *.
    unfold New.normalize_sector at 1.
    rewrite (replace_absent _ _ _ Hc), strip_idempotent, Hd.
    apply strip_idempotent.
  - assert (exists x, Old.normalize_sector s = strip x) as [x Hx]
      by (unfold Old.normalize_sector; eauto).
    intros Hall. rewrite Hx in *. unfold old_separators in Hall.
    repeat match goal with
           | Ha : Forall _ (_ :: _) |- _ =>
               let H1 := fresh "Hsep" in
               let H2 := fresh "Hall" in
               apply Forall_cons_iff in Ha; destruct Ha as [H1 H2]
           end.
    unfold Old.normalize_sector at 1.
    rewrite (replace_absent _ _ _ Hsep), strip_idempotent.
    rewrite (replace_absent _ _ _ Hsep0), (replace_absent _ _ _ Hsep1).
    rewrite (replace_absent _ _ _ Hsep2), (replace_absent _ _ _ Hsep3).
    rewrite Hsep4, Hsep5. apply strip_idempotent.
Qed.

(** The labels [Technology (continued)] and [Technology] + em dash +
    [12.3%] : both normalize to [Technology], a fixed point. *)
Lemma normalize_sector_fixed_point_witness :
  New.normalize_sector (New.normalize_sector (u "Technology (continued)")) =
    u "Technology" /\
  Old.normalize_sector
    (Old.normalize_sector (u "Technology" ++ [EM_DASH] ++ u "12.3%")) =
    u "Technology".
Proof.
  split.
  - rewrite (proj1 (normalize_sector_fixed_point
                      (u "Technology (continued)")) eq_refl eq_refl).
    reflexivity.
  - rewrite (proj2 (normalize_sector_fixed_point
                      (u "Technology" ++ [EM_DASH] ++ u "12.3%"))).
    + reflexivity.
    + repeat constructor.
Defined.

(** C8, as stated, fails in both modules: a label with two separators
    loses one part at each normalization. *)
Lemma normalize_sector_not_idempotent :
  New.normalize_sector
    (New.normalize_sector (u "Banks---Regional---1.2%")) <>
  New.normalize_sector (u "Banks---Regional---1.2%") /\
  Old.normalize_sector (Old.normalize_sector (u "Health Care 5.2%")) <>
  Old.normalize_sector (u "Health Care 5.2%").
Proof. split; vm_compute; discriminate. Qed.

(** ** C3 : the version classifier *)

(** C3.  [get_subversion] returns 1 (legacy) exactly for three tables whose
    first does not match the heading, 2 (modern) exactly for three tables
    whose first matches it or for four tables, and raises for every other
    number of tables, five among them; two pages with the same number of
    tables and the same answer of the first table get the same result. *)
Theorem get_subversion_decision (page : Page) :
  (New.get_subversion page = OK 1%Z <->
     length (page_tables page) = 3 /\ first_table_is_heading page = false) /\
  (New.get_subversion page = OK 2%Z <->
     (length (page_tables page) = 3 /\ first_table_is_heading page = true) \/
     length (page_tables page) = 4) /\
  (New.get_subversion page = Raise ValueError <->
     length (page_tables page) <> 3 /\ length (page_tables page) <> 4) /\
  (length (page_tables page) = 5 ->
     New.get_subversion page = Raise ValueError) /\
  (forall page' : Page,
     length (page_tables page') = length (page_tables page) ->
     first_table_is_heading page' = first_table_is_heading page ->
     New.get_subversion page' = New.get_subversion page).
Proof.
  unfold New.get_subversion, first_table_is_heading.
  destruct (page_tables page) as [|t0 [|t1 [|t2 [|t3 [|t4 [|t5 ts]]]]]];
    simpl; repeat split;
    try (intros; discriminate); try (intros; lia); try reflexivity;
    try (intros [[? ?]|?]; discriminate);
    try (intros [? ?]; congruence);
    try (destruct (re_search New.soi (strip (table_prettify t0)));
         simpl; intros; first [discriminate | tauto | lia
                              | intuition congruence]).
  all: intros page' Hlen Hhead;
    destruct (page_tables page') as [|u0 [|u1 [|u2 [|u3 [|u4 us]]]]];
    simpl in *; try discriminate; try reflexivity.
  rewrite Hhead. reflexivity.
Qed.

(** A first page with five tables is refused. *)
Lemma get_subversion_decision_witness :
  New.get_subversion
    {| page_text := [];
       page_tables := [empty_table; empty_table; empty_table; empty_table;
                       empty_table];
       page_leading_p := []; page_p := [] |} = Raise ValueError.
Proof.
  apply (proj1 (proj2 (proj2 (proj2 (get_subversion_decision _))))).
  reflexivity.
Defined.

(** ** C9 : the page filters *)

Lemma keep_pages_stored (pages : list Page) :
  Old.keep_pages true pages = until_total pages.
Proof.
  induction pages as [|p rest IH]; [reflexivity|]. simpl.
  destruct (Old.opens_schedule p); rewrite IH; reflexivity.
Qed.

Lemma keep_pages_before (pre rest : list Page) :
  Forall (fun q => Old.opens_schedule q = false) pre ->
  Old.keep_pages false (pre ++ rest) = Old.keep_pages false rest.
Proof.
  induction 1 as [|q pre Hq _ IH]; [reflexivity|].
  simpl. rewrite Hq. exact IH.
Qed.

(** C9, as the code has it.  The legacy filter drops every page before the
    first page that matches the heading of the schedule and the name of
    the fund and not the summary pattern, and keeps every page from that
    one up to the first page with the grand total, whatever the text of
    those pages: it has no test for the notes.  The test for the notes is
    in the modern filter: a page is kept exactly when it matches the
    heading, does not match the summary pattern, and is no page of notes
    unless it has the cross-reference. *)
Theorem page_filters (pre post : list Page) (p : Page) :
  Forall (fun q => Old.opens_schedule q = false) pre ->
  Old.opens_schedule p = true ->
  Old.extract_pages (pre ++ p :: post) = until_total (p :: post) /\
  Old.extract_pages pre = [] /\
  (forall candidates : list Page,
     New.extract_pages candidates =
     filter (fun q =>
               re_match New.soi (page_text q)
               && negb (re_match New.smr (page_text q))
               && (negb (re_match New.nts (page_text q))
                   || re_match New.stn (page_text q)))
            candidates).
Proof.
  intros Hpre Hp. unfold Old.extract_pages. repeat split.
  - rewrite (keep_pages_before _ _ Hpre). simpl. rewrite Hp.
    rewrite keep_pages_stored. reflexivity.
  - rewrite <- (app_nil_r pre). rewrite (keep_pages_before _ _ Hpre).
    reflexivity.
  - intros candidates. unfold New.extract_pages. apply filter_ext.
    intros q. unfold New.relevant.
    destruct (re_match New.soi (page_text q)),
             (re_match New.smr (page_text q)),
             (re_match New.nts (page_text q)),
             (re_match New.stn (page_text q)); reflexivity.
Qed.

(** A cover page is dropped, the schedule and the page after it are
    kept. *)
Lemma page_filters_witness :
  Old.extract_pages ([cover_page] ++ schedule_page :: [notes_page]) =
  [schedule_page; notes_page].
Proof.
  assert (Forall (fun q => Old.opens_schedule q = false) [cover_page])
    as Hpre by (constructor; [vm_compute; reflexivity | constructor]).
  assert (Old.opens_schedule schedule_page = true)
    as Hp by (vm_compute; reflexivity).
  rewrite (proj1 (page_filters [cover_page] [notes_page] schedule_page
                    Hpre Hp)).
  reflexivity.
Defined.

(** C9, as stated, fails for the legacy filter: a page of notes without
    the cross-reference that follows the schedule is kept. *)
Lemma legacy_filter_keeps_notes :
  re_match New.nts (page_text notes_page) = true /\
  re_match New.stn (page_text notes_page) = false /\
  In notes_page (Old.extract_pages [cover_page; schedule_page; notes_page]).
Proof.
  split; [vm_compute; reflexivity|]. split; [vm_compute; reflexivity|].
  vm_compute. right. left. reflexivity.
Qed.

(** ** C5 : the validation of the header *)

Section Header_facts.
Context `{PyRuntime}.

Lemma make_header_inv (etf date : str) :
  make_header etf date <> Raise AssertionError /\
  (forall h, make_header etf date = OK h ->
     ETF_NAME h = lower etf /\ Timestamp date = Some (REPORT_DATE h)).
Proof.
  unfold make_header. destruct (Timestamp date); split;
    try discriminate.
  intros h [= <-]. split; reflexivity.
Qed.

Lemma new_validate_header (title etf date : str) :
  (New.validate_header (title, etf, date) = Raise AssertionError <->
     re_match New.re_title title = false \/
     mem_str (lower etf) New.accepted_names = false) /\
  (forall h, New.validate_header (title, etf, date) = OK h ->
     ETF_NAME h = lower etf /\ Timestamp date = Some (REPORT_DATE h)).
Proof.
  unfold New.validate_header.
  destruct (make_header_inv etf date) as [Hne Hok].
  destruct (re_match New.re_title title),
           (mem_str (lower etf) New.accepted_names); cbn [bind assert].
  - split; [|exact Hok]. split; [contradiction | intros [?|?]; discriminate].
  - split; [|discriminate]. split; auto.
  - split; [|discriminate]. split; auto.
  - split; [|discriminate]. split; auto.
Qed.

Lemma old_validate_header (title etf date : str) :
  (Old.validate_header (title, etf, date) = Raise AssertionError <->
     re_match Old.re_title title = false \/
     re_match Old.re_fund etf = false) /\
  (forall h, Old.validate_header (title, etf, date) = OK h ->
     ETF_NAME h = lower etf /\ Timestamp date = Some (REPORT_DATE h)).
Proof.
  unfold Old.validate_header.
  destruct (make_header_inv etf date) as [Hne Hok].
  destruct (re_match Old.re_title title),
           (re_match Old.re_fund etf); cbn [bind assert].
  - split; [|exact Hok]. split; [contradiction | intros [?|?]; discriminate].
  - split; [|discriminate]. split; auto.
  - split; [|discriminate]. split; auto.
  - split; [|discriminate]. split; auto.
Qed.

End Header_facts.

(** C5, as the code has it.  Once the title, the fund name and the date
    are picked from the page, [parse_header_info] fails its validation
    (an [AssertionError]) exactly when the title does not match the
    pattern of its module or the fund name is refused; on success it
    returns the fund name in lower case and the parsed date.  The modern
    module refuses a name whose lower case is not one of three accepted
    spellings; the legacy module refuses a name that does not begin,
    whatever the case, with its one spelling: what follows the spelling is
    not looked at. *)
Theorem header_validation `{PyRuntime} (page : Page) (version : Z)
    (title etf date : str) :
  (New.header_cells page version = OK (title, etf, date) ->
     (New.parse_header_info page version = Raise AssertionError <->
        re_match New.re_title title = false \/
        mem_str (lower etf) New.accepted_names = false) /\
     (forall h, New.parse_header_info page version = OK h ->
        ETF_NAME h = lower etf /\ Timestamp date = Some (REPORT_DATE h))) /\
  (Old.header_cells page = OK (title, etf, date) ->
     (Old.parse_header_info page = Raise AssertionError <->
        re_match Old.re_title title = false \/
        re_match Old.re_fund etf = false) /\
     (forall h, Old.parse_header_info page = OK h ->
        ETF_NAME h = lower etf /\ Timestamp date = Some (REPORT_DATE h))).
Proof.
  split; intros Hcells.
  - unfold New.parse_header_info. rewrite Hcells. cbn [bind].
    apply new_validate_header.
  - unfold Old.parse_header_info. rewrite Hcells. cbn [bind].
    apply old_validate_header.
Qed.

(** The header of a legacy page with the accepted name passes the
    validation. *)
Lemma header_validation_witness :
  Old.header_cells (header_page (fund_name "")) =
    OK (u "Schedule of Investments", fund_name "", u "2010-03-31") /\
  (Old.parse_header_info (header_page (fund_name "")) = Raise AssertionError
   <-> re_match Old.re_title (u "Schedule of Investments") = false \/
       re_match Old.re_fund (fund_name "") = false).
Proof.
  split; [reflexivity|].
  exact (proj1 (proj2 (header_validation (header_page (fund_name "")) 1
                         (u "Schedule of Investments") (fund_name "")
                         (u "2010-03-31")) eq_refl)).
Defined.

(** C5, as stated, fails for the legacy module: a fund name that is none of
    the accepted spellings, compared without case, passes the validation. *)
Lemma legacy_header_accepts_longer_name :
  Old.parse_header_info (header_page (fund_name " (Continued)")) =
    OK {| ETF_NAME := lower (fund_name " (Continued)");
          REPORT_DATE := At 20100331 |} /\
  mem_str (lower (fund_name " (Continued)"))
    (lower (u "iSHARES" ++ [REGISTERED] ++ u " RUSSELL 3000 INDEX FUND")
     :: New.accepted_names) = false.
Proof. split; vm_compute; reflexivity. Qed.

(** ** C4 : page segmentation *)

Lemma insert_sorted_perm (x : nat) (l : list nat) :
  Permutation (x :: l) (insert_sorted x l).
Proof.
  induction l as [|y l IH]; simpl; [reflexivity|].
  destruct (Nat.leb x y); [reflexivity|].
  rewrite perm_swap. constructor. exact IH.
Qed.

Lemma sorted_perm (l : list nat) : Permutation l (sorted l).
Proof.
  induction l as [|x l IH]; simpl; [constructor|].
  rewrite <- insert_sorted_perm. constructor. exact IH.
Qed.

Lemma insert_sorted_Sorted (x : nat) (l : list nat) :
  Sorted le l -> Sorted le (insert_sorted x l).
Proof.
  induction 1 as [|y l Hl IH Hy]; simpl.
  - repeat constructor.
  - destruct (Nat.leb_spec x y) as [Hxy|Hxy].
    + repeat constructor; assumption.
    + constructor; [exact IH|].
      destruct l as [|z l]; simpl.
      * constructor. lia.
      * destruct (Nat.leb x z); constructor; [lia|].
        inversion Hy; assumption.
Qed.

Lemma sorted_Sorted (l : list nat) : Sorted le (sorted l).
Proof.
  induction l as [|x l IH]; simpl; [constructor|].
  apply insert_sorted_Sorted, IH.
Qed.

Lemma firstn_add {A : Type} (n m : nat) (l : list A) :
  firstn (n + m) l = firstn n l ++ firstn m (skipn n l).
Proof.
  revert l; induction n as [|n IH]; intros l; [reflexivity|].
  destruct l as [|a l]; simpl.
  - rewrite firstn_nil. reflexivity.
  - rewrite IH. reflexivity.
Qed.

(** Two slices that meet make one slice. *)
Lemma slice_app {A : Type} (buf : list A) (a b c : nat) :
  a <= b -> b <= c -> slice buf a b ++ slice buf b c = slice buf a c.
Proof.
  intros Hab Hbc. unfold slice.
  replace (c - a) with ((b - a) + (c - b)) by lia.
  rewrite firstn_add, skipn_skipn.
  replace (b - a + a) with b by lia. reflexivity.
Qed.

Lemma Sorted_le_last (a : nat) (l : list nat) :
  Sorted le (a :: l) -> a <= last (a :: l) a.
Proof.
  intros Hs. apply Sorted_StronglySorted in Hs; [|intros x y z; lia].
  apply StronglySorted_inv in Hs. destruct Hs as [_ Hall].
  destruct l as [|b l]; [simpl; lia|].
  rewrite Forall_forall in Hall. apply Hall.
  change (last (a :: b :: l) a) with (last (b :: l) a).
  destruct (exists_last (l := b :: l)) as (l' & z & ->); [discriminate|].
  rewrite last_last. apply in_or_app. right. left. reflexivity.
Qed.

Lemma segment_pages_concat {A : Type} (buf : list A) (a : nat)
    (l : list nat) :
  Sorted le (a :: l) ->
  concat (segment_pages buf (a :: l)) = slice buf a (last (a :: l) a).
Proof.
  revert a; induction l as [|b l IH]; intros a Hs.
  - simpl. unfold slice. rewrite Nat.sub_diag. reflexivity.
  - change (segment_pages buf (a :: b :: l))
      with (slice buf a b :: segment_pages buf (b :: l)).
    rewrite concat_cons.
    apply Sorted_inv in Hs. destruct Hs as [Hs Hab].
    apply HdRel_inv in Hab.
    rewrite (IH b Hs).
    change (last (a :: b :: l) a) with (last (b :: l) a).
    replace (last (b :: l) a) with (last (b :: l) b)
      by (destruct (exists_last (l := b :: l)) as (l' & z & ->);
          [discriminate | rewrite !last_last; reflexivity]).
    apply slice_app; [exact Hab | apply Sorted_le_last, Hs].
Qed.

Lemma segment_pages_length {A : Type} (buf : list A) (l : list nat) :
  length (segment_pages buf l) = length l - 1.
Proof.
  induction l as [|a [|b l] IH]; try reflexivity.
  change (segment_pages buf (a :: b :: l))
    with (slice buf a b :: segment_pages buf (b :: l)).
  simpl length in *. rewrite IH. lia.
Qed.

Lemma segment_pages_nth {A : Type} (buf : list A) (l : list nat) (i : nat) :
  i + 1 < length l ->
  nth i (segment_pages buf l) [] = slice buf (nth i l 0) (nth (i + 1) l 0).
Proof.
  revert i; induction l as [|a [|b l] IH]; intros i Hi; simpl in Hi;
    try lia.
  change (segment_pages buf (a :: b :: l))
    with (slice buf a b :: segment_pages buf (b :: l)).
  destruct i as [|i]; [reflexivity|].
  change (nth (S i) (slice buf a b :: segment_pages buf (b :: l)) [])
    with (nth i (segment_pages buf (b :: l)) []).
  rewrite IH by (simpl; lia). reflexivity.
Qed.

Lemma get_page_separators_In (page_separators : list bytes) (sep v : bytes) :
  In sep page_separators ->
  v = sep \/ v = sub_byte DQUOTE SQUOTE sep \/ v = sub_byte SQUOTE DQUOTE sep ->
  In v (get_page_separators page_separators).
Proof.
  intros Hsep Hv. unfold get_page_separators.
  apply nodup_In, in_or_app.
  destruct Hv as [->|Hv]; [left; exact Hsep|].
  right. apply in_flat_map. exists sep. split; [exact Hsep|].
  destruct Hv as [->| ->]; simpl; auto.
Qed.

(** C4.  The cut points of [extract_pages] are the starts of the matches of
    every separator in both quotings, sorted in ascending order; [k] cut
    points, [k] at least 1, give [k-1] candidate pages, and no cut point
    gives no page; page [i] is the buffer from cut point [i] to cut point
    [i+1], so the pages follow the order of the buffer; and put end to end
    the pages are the buffer from the first cut point to the last one. *)
Theorem segmentation_partitions (finditer : bytes -> bytes -> list nat)
    (page_separators : list bytes) (buf : bytes) :
  let seps := get_page_separators page_separators in
  let breaks := page_breaks finditer seps buf in
  let pages := candidate_pages finditer page_separators buf in
  (forall sep v o,
      In sep page_separators ->
      v = sep \/ v = sub_byte DQUOTE SQUOTE sep \/
      v = sub_byte SQUOTE DQUOTE sep ->
      In o (finditer v buf) -> In o breaks) /\
  Permutation (flat_map (fun sep => finditer sep buf) seps) breaks /\
  Sorted le breaks /\
  (breaks = [] -> pages = []) /\
  (breaks <> [] -> length pages + 1 = length breaks) /\
  (forall i, i + 1 < length breaks ->
      nth i pages [] = slice buf (nth i breaks 0) (nth (i + 1) breaks 0)) /\
  concat pages = slice buf (hd 0 breaks) (last breaks 0).
Proof.
  intros seps breaks pages. unfold pages, candidate_pages. fold seps breaks.
  split; [|split; [|split; [|split; [|split; [|split]]]]].
  - intros sep v o Hsep Hv Ho.
    apply (Permutation_in o (sorted_perm _)).
    apply in_flat_map. exists v. split; [|exact Ho].
    apply (get_page_separators_In _ sep); assumption.
  - apply sorted_perm.
  - apply sorted_Sorted.
  - intros ->. reflexivity.
  - intros Hne. pose proof (segment_pages_length buf breaks) as Hlen.
    assert (length breaks <> 0)
      by (destruct breaks; [contradiction | discriminate]).
    unfold bytes in *. lia.
  - intros i Hi. apply segment_pages_nth, Hi.
  - pose proof (sorted_Sorted (flat_map (fun sep => finditer sep buf) seps))
      as Hs. fold (page_breaks finditer seps buf) in Hs. fold breaks in Hs.
    destruct breaks as [|a l].
    + reflexivity.
    + rewrite (segment_pages_concat buf a l Hs). simpl hd.
      destruct (exists_last (l := a :: l)) as (l' & z & ->); [discriminate|].
      rewrite !last_last. reflexivity.
Qed.

(** The pages cut at the literal occurrences of a separator make up the
    buffer between the first occurrence and the last. *)
Lemma segmentation_partitions_witness :
  List.concat
    (candidate_pages find_literal
       [b "<p class=" ++ [DQUOTE] ++ b "pb" ++ [DQUOTE] ++ b ">"]
       (b "head<p class='pb'>one<p class='pb'>two<p class='pb'>tail")) =
  b "<p class='pb'>one<p class='pb'>two".
Proof.
  rewrite (proj2 (proj2 (proj2 (proj2 (proj2 (proj2
             (segmentation_partitions find_literal
                [b "<p class=" ++ [DQUOTE] ++ b "pb" ++ [DQUOTE] ++ b ">"]
                (b "head<p class='pb'>one<p class='pb'>two<p class='pb'>tail")
             ))))))).
  vm_compute. reflexivity.
Defined.

(** A separator that the soup prints with double quotes, and a buffer
    that writes it three times with single quotes: two pages. *)
Example candidate_pages_example :
  candidate_pages find_literal
    [b "<p class=" ++ [DQUOTE] ++ b "pb" ++ [DQUOTE] ++ b ">"]
    (b "head<p class='pb'>one<p class='pb'>two<p class='pb'>tail") =
  [b "<p class='pb'>one"; b "<p class='pb'>two"].
Proof. vm_compute. reflexivity. Qed.

(** ** C2 : the current sector at a subtotal row and at a holding row *)




(** ** Dictionaries and sums *)

Lemma str_eqb_spec (a b : str) : reflect (a = b) (str_eqb a b).
Proof.
  destruct (str_eqb a b) eqn:E; constructor.
  - apply str_eqb_eq, E.
  - intros Hab. apply str_eqb_eq in Hab. congruence.
Qed.

Lemma dict_get_set {V : Type} (d : dict V) (k k' : str) (v : V) :
  dict_get (dict_set d k v) k' =
  if str_eqb k' k then Some v else dict_get d k'.
Proof.
  induction d as [|[k0 v0] d IH]; simpl; [reflexivity|].
  destruct (str_eqb_spec k k0) as [->|Hk]; simpl.
  - destruct (str_eqb k' k0); reflexivity.
  - rewrite IH. destruct (str_eqb_spec k' k0) as [->|Hk'];
      [|reflexivity].
    destruct (str_eqb_spec k0 k); [congruence | reflexivity].
Qed.

Lemma sum_values_app (l1 l2 : list Holding) :
  sum_values (l1 ++ l2) = (sum_values l1 + sum_values l2)%Z.
Proof. induction l1 as [|h l1 IH]; simpl; [reflexivity | rewrite IH; lia]. Qed.

Lemma total_eqb_eq (reported : option Z) (derived : Z) :
  total_eqb reported derived = true <-> reported = Some derived.
Proof.
  destruct reported as [t|]; simpl; [|split; discriminate].
  rewrite Z.eqb_eq. split; [intros ->; reflexivity | intros [= ->]; reflexivity].
Qed.

Lemma assert_OK (c : bool) : assert c = OK tt <-> c = true.
Proof. destruct c; simpl; split; congruence. Qed.

Lemma timestamp_eqb_eq (a c : timestamp) :
  timestamp_eqb a c = true -> a = c.
Proof.
  destruct a, c; simpl; try discriminate.
  rewrite Z.eqb_eq. intros ->; reflexivity.
Qed.

(** ** The aggregation of the modern module *)

Section New_aggregation.
Context `{PyRuntime}.

Lemma derive_ok (hs : list Holding) :
  forall acc acc',
    derived_ok acc ->
    New.derive acc hs = OK acc' ->
    derived_ok acc' /\
    New.agg_sector_totals acc' = New.agg_sector_totals acc /\
    New.agg_holdings acc' = New.agg_holdings acc ++ List.map normalized hs.
Proof.
  induction hs as [|h hs IH]; intros acc acc' Hok; simpl.
  - intros [= <-]. rewrite app_nil_r. auto.
  - destruct (SECTOR h) as [s0|] eqn:Hs0; [|discriminate].
    intros Hd. apply IH in Hd.
    + destruct Hd as (Hok' & Htot & Hhold). simpl in *.
      split; [exact Hok'|]. split; [exact Htot|].
      rewrite Hhold, <- app_assoc. unfold normalized at 2. rewrite Hs0.
      reflexivity.
    + destruct Hok as [Hc Hs]. split; simpl.
      * rewrite sum_values_app, Hc. simpl. unfold value_or_zero. simpl. lia.
      * intros s. rewrite dict_get_set, filter_app, sum_values_app.
        simpl filter. unfold in_sector at 2. simpl SECTOR.
        destruct (str_eqb_spec s (New.normalize_sector s0)) as [->|Hne].
        -- rewrite str_eqb_refl. rewrite <- Hs. simpl.
           unfold value_or_zero at 2; simpl. fold (value_or_zero h). lia.
        -- destruct (str_eqb_spec (New.normalize_sector s0) s);
             [congruence|].
           rewrite Hs. simpl. lia.
Qed.

Lemma aggregate_ok (results : list New.PageResult) :
  forall prev acc acc',
    derived_ok acc ->
    New.aggregate prev acc results = OK acc' ->
    derived_ok acc' /\
    New.agg_sector_totals acc' =
      fold_left (fun d r => dict_merge d (SECTOR_TOTALS (New.BODY r)))
        results (New.agg_sector_totals acc) /\
    New.agg_holdings acc' =
      New.agg_holdings acc ++
      List.map normalized (flat_map (fun r => HOLDINGS (New.BODY r)) results) /\
    (forall p, prev = Some p -> Forall (same_header p) results).
Proof.
  induction results as [|r rest IH]; intros prev acc acc' Hok; simpl.
  - intros [= <-]. rewrite app_nil_r.
    split; [exact Hok|]. split; [reflexivity|]. split; [reflexivity|].
    intros; constructor.
  - intros Hagg.
    assert (forall p, prev = Some p -> same_header p r) as Hsame.
    { intros p ->. simpl in Hagg.
      destruct (str_eqb_spec (ETF_NAME (New.HEADER r))
                             (ETF_NAME (New.HEADER p))) as [Hn|];
        [|discriminate].
      simpl in Hagg.
      destruct (timestamp_eqb (REPORT_DATE (New.HEADER r))
                              (REPORT_DATE (New.HEADER p))) eqn:Hd;
        [|discriminate].
      split; [exact Hn | apply timestamp_eqb_eq, Hd]. }
    destruct (match prev with
              | Some p =>
                  _ <- assert (str_eqb (ETF_NAME (New.HEADER r))
                                       (ETF_NAME (New.HEADER p))) ;;
                  assert (timestamp_eqb (REPORT_DATE (New.HEADER r))
                                        (REPORT_DATE (New.HEADER p)))
              | None => OK tt
              end) as [[]|]; [|discriminate].
    cbn [bind] in Hagg.
    destruct (New.derive _ (HOLDINGS (New.BODY r))) as [acc1|] eqn:Hder;
      [|discriminate].
    cbn [bind] in Hagg.
    apply derive_ok in Hder; [|exact Hok].
    destruct Hder as (Hok1 & Htot1 & Hhold1). simpl in Htot1, Hhold1.
    apply IH in Hagg; [|exact Hok1].
    destruct Hagg as (Hok' & Htot & Hhold & Hhead).
    split; [exact Hok'|]. split; [rewrite Htot, Htot1; reflexivity|].
    split.
    + rewrite Hhold, Hhold1, map_app, app_assoc. reflexivity.
    + intros p Hp. constructor; [apply Hsame, Hp|].
      specialize (Hhead r eq_refl).
      destruct (Hsame p Hp) as [Hn Hd].
      eapply Forall_impl; [|exact Hhead].
      intros q [Hqn Hqd]. split; congruence.
Qed.

Lemma validate_sectors_ok (derived : dict Z) (items : dict (option Z)) :
  New.validate_sectors derived items = OK tt ->
  forall sector total,
    In (sector, total) items ->
    exists d, dict_get derived (New.normalize_sector sector) = Some d /\
              total = Some d.
Proof.
  induction items as [|[k t] items IH]; simpl; [intros _ ? ? []|].
  unfold dict_item.
  destruct (dict_get derived (New.normalize_sector k)) as [d|] eqn:Hget;
    [|discriminate].
  cbn [bind]. destruct (total_eqb t d) eqn:Ht; [|discriminate].
  cbn [bind assert]. intros Hrest sector total [[= <- <-]|Hin].
  - exists d. split; [exact Hget | apply total_eqb_eq, Ht].
  - apply (IH Hrest), Hin.
Qed.

(** What [reconcile] has checked when it returns. *)
Lemma new_reconcile_ok (results : list New.PageResult) (out : FilingResult) :
  New.reconcile results = OK out ->
  holdings out = new_holdings results /\
  reconciled New.normalize_sector (new_reported results) (holdings out) /\
  exists first,
    nth_error results 0 = Some first /\
    etf_name out = ETF_NAME (New.HEADER first) /\
    report_date out = REPORT_DATE (New.HEADER first) /\
    Forall (same_header first) results.
Proof.
  unfold New.reconcile.
  destruct (New.aggregate None _ results) as [agg|] eqn:Hagg; [|discriminate].
  cbn [bind].
  pose proof Hagg as Hagg0.
  apply aggregate_ok in Hagg; [|split; [reflexivity | intros s; reflexivity]].
  destruct Hagg as ((Hcommon & Hsect) & Htot & Hhold & _).
  simpl in Htot, Hhold. fold (new_reported results) in Htot.
  fold (new_holdings results) in Hhold.
  unfold dict_item.
  destruct (dict_get (New.agg_sector_totals agg) TOTAL_COMMON_STOCKS)
    as [total|] eqn:Hget; [|discriminate].
  cbn [bind].
  destruct (total_eqb total (New.derived_common_totals agg)) eqn:Hteq;
    [|discriminate].
  cbn [bind assert].
  destruct (New.validate_sectors _ _) as [[]|] eqn:Hval; [|discriminate].
  cbn [bind]. unfold index.
  destruct (nth_error results 0) as [first|] eqn:Hfirst; [|discriminate].
  cbn [bind]. intros [= <-]. simpl.
  split; [exact Hhold|]. split.
  - split.
    + rewrite <- Htot, Hget. f_equal.
      apply total_eqb_eq in Hteq. rewrite Hteq, Hcommon. reflexivity.
    + intros sector total' Hin. rewrite <- Htot in Hin.
      destruct (validate_sectors_ok _ _ Hval _ _ Hin) as (d & Hd & ->).
      specialize (Hsect (New.normalize_sector sector)).
      rewrite Hd in Hsect. rewrite Hsect. reflexivity.
  - exists first. repeat split.
    destruct results as [|r rest]; [discriminate|].
    simpl in Hfirst. injection Hfirst as ->.
    constructor; [split; reflexivity|].
    simpl in Hagg0.
    destruct (New.derive _ (HOLDINGS (New.BODY first))) as [acc1|] eqn:Hder;
      [|discriminate].
    cbn [bind] in Hagg0.
    apply derive_ok in Hder;
      [|split; [reflexivity | intros s; reflexivity]].
    destruct Hder as (Hok1 & _).
    apply aggregate_ok in Hagg0; [|exact Hok1].
    destruct Hagg0 as (_ & _ & _ & Hhead). apply (Hhead first eq_refl).
Qed.

End New_aggregation.

(** ** The sanity check of the legacy module *)

Section Old_aggregation.
Context `{PyRuntime}.

Lemma old_validate_sectors_ok (hs : list Holding) (items : dict (option Z)) :
  Old.validate_sectors hs items = OK tt ->
  forall sector total,
    In (sector, total) items ->
    total = Some (sum_values (filter (in_sector sector) hs)).
Proof.
  induction items as [|[k t] items IH]; simpl; [intros _ ? ? []|].
  destruct (total_eqb t (sum_values (filter (in_sector k) hs))) eqn:Ht;
    [|discriminate].
  cbn [bind assert]. intros Hrest sector total [[= <- <-]|Hin].
  - apply total_eqb_eq, Ht.
  - apply (IH Hrest), Hin.
Qed.

Lemma old_reconcile_ok (header : Header) (results : list ColumnResult)
    (out : FilingResult) :
  Old.reconcile header results = OK out ->
  holdings out = Old.all_holdings results /\
  reconciled (fun s => s) (Old.all_sector_totals results) (holdings out) /\
  etf_name out = ETF_NAME header /\
  report_date out = REPORT_DATE header.
Proof.
  unfold Old.reconcile.
  destruct (Old.all_holdings results) as [|h hs] eqn:Hhs; [discriminate|].
  cbn [bind]. unfold dict_item.
  destruct (dict_get (Old.all_sector_totals results) TOTAL_COMMON_STOCKS)
    as [total|] eqn:Hget; [|discriminate].
  cbn [bind].
  destruct (total_eqb total (sum_values (h :: hs))) eqn:Hteq; [|discriminate].
  cbn [bind assert].
  destruct (Old.validate_sectors _ _) as [[]|] eqn:Hval; [|discriminate].
  cbn [bind]. intros [= <-]. simpl holdings. simpl etf_name.
  simpl report_date.
  split; [reflexivity|]. split; [|split; reflexivity]. split.
  - rewrite Hget. apply total_eqb_eq in Hteq. rewrite Hteq. reflexivity.
  - intros sector total' Hin.
    apply (old_validate_sectors_ok _ _ Hval _ _ Hin).
Qed.

(** The loop over the pages reads the tables of the pages, nothing else. *)
Lemma old_parse_pages_tables (pages pages' : list Page) :
  List.map page_tables pages' = List.map page_tables pages ->
  forall first_page current_sector,
    Old.parse_pages pages' first_page current_sector =
    Old.parse_pages pages first_page current_sector.
Proof.
  revert pages'; induction pages as [|p rest IH]; intros [|p' rest'];
    try discriminate; [reflexivity|].
  simpl List.map. intros [= Hp Hrest] first_page current_sector.
  simpl. rewrite Hp.
  destruct (Old.parse_tables (page_tables p) first_page current_sector)
    as [[[results hit] cs]|]; [|reflexivity].
  cbn [bind]. destruct hit; [reflexivity|].
  rewrite (IH _ Hrest). reflexivity.
Qed.

End Old_aggregation.

Section New_pages.
Context `{PyRuntime}.

Lemma parse_holdings_page_header (page : Page) (is_first_page : bool)
    (version : Z) (current_sector : option str) (res : New.PageResult) :
  New.parse_holdings_page page is_first_page version current_sector = OK res ->
  New.parse_header_info page version = OK (New.HEADER res).
Proof.
  unfold New.parse_holdings_page.
  destruct (New.parse_header_info page version) as [h|]; [|discriminate].
  cbn [bind].
  destruct (New.extract_holdings_columns page version); [|discriminate].
  cbn [bind].
  destruct (New.parse_columns _ _ _ _); [|discriminate].
  cbn [bind]. intros [= <-]. reflexivity.
Qed.

(** Every page result carries the header of its own page. *)
Lemma parse_pages_headers (pages : list Page) :
  forall is_first_page version current_sector results,
    New.parse_pages pages is_first_page version current_sector = OK results ->
    Forall2 (fun page r =>
               New.parse_header_info page version = OK (New.HEADER r))
            (firstn (length results) pages) results.
Proof.
  induction pages as [|page rest IH];
    intros is_first_page version current_sector results; simpl.
  - intros [= <-]. constructor.
  - destruct (New.parse_holdings_page page is_first_page version
                current_sector) as [res|] eqn:Hres; [|discriminate].
    cbn [bind]. apply parse_holdings_page_header in Hres.
    destruct (HIT_TOTAL_COMMON_STOCKS (New.BODY res)).
    + intros [= <-]. simpl. constructor; [exact Hres | constructor].
    + destruct (New.parse_pages rest false version _) as [more|] eqn:Hmore;
        [|discriminate].
      cbn [bind]. intros [= <-]. simpl.
      constructor; [exact Hres | apply (IH _ _ _ _ Hmore)].
Qed.

End New_pages.

(** ** C1 : the totals reconcile *)



(** A filing of one page whose totals reconcile. *)
Example modern_filing_reconciles :
  New.parse_filing
    [modern_page "2019-03-31" (technology_column "50,000")
       (energy_column "60,000")] =
  OK {| etf_name := u "ishares" ++ [REGISTERED] ++ u " russell 3000 etf";
        report_date := At 20190331;
        holdings := [acme; beta] |}.
Proof. vm_compute. reflexivity. Qed.

(** A reported grand total that is not the sum of the values, and a
    reported subtotal that is not the sum of its sector. *)
Example modern_filing_mismatch :
  New.parse_filing
    [modern_page "2019-03-31" (technology_column "50,000")
       (energy_column "65,000")] = Raise AssertionError /\
  New.parse_filing
    [modern_page "2019-03-31" (technology_column "55,000")
       (energy_column "60,000")] = Raise AssertionError.
Proof. split; vm_compute; reflexivity. Qed.

(** ** C6 : the header of every page *)

(** C6, as the code has it.  The modern module reads the header of every
    page that it parses (the pages up to the one with the grand total) and
    compares it with the header of the page before: when [parse_filing]
    returns, every page result has the fund name and the date returned,
    each being the header of its own page; when two page results differ in
    name or date, [parse_filing] raises.  The legacy module reads the
    header of the first page only and returns it: the loop over the pages
    reads the tables of the pages and nothing else of them. *)
Theorem header_agreement `{PyRuntime} :
  (forall candidates out,
     New.parse_filing candidates = OK out ->
     exists results,
       New.page_results candidates = OK results /\
       Forall (fun r => ETF_NAME (New.HEADER r) = etf_name out /\
                        REPORT_DATE (New.HEADER r) = report_date out)
              results) /\
  (forall pages is_first_page version current_sector results,
     New.parse_pages pages is_first_page version current_sector = OK results ->
     Forall2 (fun page r =>
                New.parse_header_info page version = OK (New.HEADER r))
             (firstn (length results) pages) results) /\
  (forall candidates results p r,
     New.page_results candidates = OK results ->
     In p results -> In r results -> ~ same_header p r ->
     exists e, New.parse_filing candidates = Raise e) /\
  (forall candidates out,
     Old.parse_filing candidates = OK out ->
     exists first header,
       nth_error (Old.extract_pages candidates) 0 = Some first /\
       Old.parse_header_info first = OK header /\
       etf_name out = ETF_NAME header /\
       report_date out = REPORT_DATE header) /\
  (forall pages pages',
     List.map page_tables pages' = List.map page_tables pages ->
     Old.column_results pages' = Old.column_results pages).
Proof.
  assert (forall candidates out,
            New.parse_filing candidates = OK out ->
            exists results,
              New.page_results candidates = OK results /\
              Forall (fun r => ETF_NAME (New.HEADER r) = etf_name out /\
                               REPORT_DATE (New.HEADER r) = report_date out)
                     results) as Hnew.
  { intros candidates out. unfold New.parse_filing.
    destruct (New.page_results candidates) as [results|]; [|discriminate].
    cbn [bind]. intros Hrec. apply new_reconcile_ok in Hrec.
    destruct Hrec as (_ & _ & first & _ & Hn & Hd & Hall).
    exists results. split; [reflexivity|].
    eapply Forall_impl; [|exact Hall].
    intros r [Hrn Hrd]. split; congruence. }
  split; [exact Hnew|]. split; [|split; [|split]].
  - intros pages is_first_page version current_sector results.
    apply parse_pages_headers.
  - intros candidates results p r Hres Hp Hr Hnot.
    destruct (New.parse_filing candidates) as [out|e] eqn:Hparse; [|eauto].
    exfalso. apply Hnew in Hparse.
    destruct Hparse as (results' & Hres' & Hall).
    rewrite Hres in Hres'. injection Hres' as <-.
    rewrite Forall_forall in Hall.
    destruct (Hall p Hp) as [Hpn Hpd]. destruct (Hall r Hr) as [Hrn Hrd].
    apply Hnot. split; congruence.
  - intros candidates out. unfold Old.parse_filing, index.
    destruct (nth_error (Old.extract_pages candidates) 0) as [first|];
      [|discriminate].
    cbn [bind].
    destruct (Old.parse_header_info first) as [header|] eqn:Hhead;
      [|discriminate].
    cbn [bind].
    destruct (Old.column_results (Old.extract_pages candidates))
      as [results|]; [|discriminate].
    cbn [bind]. intros Hrec. apply old_reconcile_ok in Hrec.
    destruct Hrec as (_ & _ & Hn & Hd). exists first, header.
    repeat split; first [assumption | reflexivity].
  - intros pages pages' Htables. unfold Old.column_results.
    apply old_parse_pages_tables, Htables.
Qed.

(** The two pages of a modern filing carry the header that is returned. *)
Lemma header_agreement_witness :
  exists results,
    New.page_results
      [modern_page "2019-03-31" (technology_column "50,000") [heading_row];
       modern_page "2019-03-31" [heading_row] (energy_column "60,000")] =
      OK results /\
    Forall (fun r =>
              ETF_NAME (New.HEADER r) =
                u "ishares" ++ [REGISTERED] ++ u " russell 3000 etf" /\
              REPORT_DATE (New.HEADER r) = At 20190331) results.
Proof.
  apply (proj1 header_agreement
           [modern_page "2019-03-31" (technology_column "50,000")
              [heading_row];
            modern_page "2019-03-31" [heading_row] (energy_column "60,000")]
           {| etf_name :=
                u "ishares" ++ [REGISTERED] ++ u " russell 3000 etf";
              report_date := At 20190331;
              holdings := [acme; beta] |}).
  vm_compute. reflexivity.
Defined.

(** Two modern pages with two dates: the parse is aborted. *)
Example modern_pages_disagree :
  New.parse_filing
    [modern_page "2019-03-31" (technology_column "50,000") [heading_row];
     modern_page "2019-09-30" [heading_row] (energy_column "60,000")] =
  Raise AssertionError /\
  New.parse_filing
    [modern_page "2019-03-31" (technology_column "50,000") [heading_row];
     modern_page "2019-03-31" [heading_row] (energy_column "60,000")] =
  OK {| etf_name := u "ishares" ++ [REGISTERED] ++ u " russell 3000 etf";
        report_date := At 20190331;
        holdings := [acme; beta] |}.
Proof. split; vm_compute; reflexivity. Qed.

(** C6, as stated, fails for the legacy module: the second page carries
    another date than the first, both pages are parsed, and the filing is
    returned with the date of the first page. *)
Lemma legacy_pages_disagree :
  Old.extract_pages [legacy_first_page; legacy_second_page "2011-03-31"] =
    [legacy_first_page; legacy_second_page "2011-03-31"] /\
  Old.parse_header_info legacy_first_page =
    OK {| ETF_NAME := lower (fund_name ""); REPORT_DATE := At 20100331 |} /\
  Old.parse_header_info (legacy_second_page "2011-03-31") =
    OK {| ETF_NAME := lower (fund_name ""); REPORT_DATE := At 20110331 |} /\
  Old.parse_filing [legacy_first_page; legacy_second_page "2011-03-31"] =
    OK {| etf_name := lower (fund_name "");
          report_date := At 20100331;
          holdings := [acme; beta] |}.
Proof. repeat split; vm_compute; reflexivity. Qed.


(** ** The scenarios of the specification *)

(** A column of one sector, one holding and the subtotal of the sector. *)
Example column_scenario :
  New.parse_holdings_column
    [ heading_row;
      [u "Common Stocks"];
      [u "Technology"];
      [u "Acme Corp"; u "1,000"; u "50,000"];
      [u "12,345,000"] ]
    true None =
  OK {| HOLDINGS := [acme];
        SECTOR_TOTALS := [(u "Technology", Some 12345000%Z)];
        HIT_TOTAL_COMMON_STOCKS := false;
        CURRENT_SECTOR := Some (u "Technology") |}.
Proof. vm_compute. reflexivity. Qed.

(** A holding row with a footnote: the same record as without it; a fourth
    cell that is no footnote is refused. *)
Example footnote_scenario :
  classify Old.normalize_sector (no_holdings (Some (u "Energy")))
    [u "Beta Inc"; u "500"; u "10,000"; u "(a)"] =
  classify Old.normalize_sector (no_holdings (Some (u "Energy")))
    [u "Beta Inc"; u "500"; u "10,000"] /\
  classify Old.normalize_sector (no_holdings (Some (u "Energy")))
    [u "Beta Inc"; u "500"; u "10,000"; u "n/a"] = Raise AssertionError.
Proof. split; vm_compute; reflexivity. Qed.

(* ================================================================== *)
(** * Further properties of the code *)

(** ** The text normalizer *)

Lemma replace1_map (a c : N) (s : str) :
  replace [a] [c] s = List.map (fun x => if N.eqb a x then c else x) s.
Proof.
  induction s as [|x r IH]; [reflexivity|].
  rewrite replace1_cons, IH. simpl. destruct (N.eqb a x); reflexivity.
Qed.

Lemma scrub_text_steps (s : str) :
  scrub_text s =
  List.map (fun x => if N.eqb X92 x then 39%N else x)
    (sub_spaces [SPACE] false
       (List.map (fun x => if N.eqb NBSP x then SPACE else x) s)).
Proof.
  unfold scrub_text. change (u "'") with [39%N].
  rewrite !replace1_map. reflexivity.
Qed.

Lemma sub_spaces_cons (rep : str) (in_run : bool) (c : N) (r : str) :
  sub_spaces rep in_run (c :: r) =
  if isspace c then (if in_run then [] else rep) ++ sub_spaces rep true r
  else c :: sub_spaces rep false r.
Proof. reflexivity. Qed.

Lemma scrubbed_from_cons (after_space : bool) (c : N) (r : str) :
  scrubbed_from after_space (c :: r) =
  if isspace c
  then N.eqb c SPACE && negb after_space && scrubbed_from true r
  else negb (N.eqb c X92) && scrubbed_from false r.
Proof. reflexivity. Qed.

Lemma scrub_steps_scrubbed (s : str) :
  forall in_run,
    scrubbed_from in_run
      (List.map (fun x => if N.eqb X92 x then 39%N else x)
         (sub_spaces [SPACE] in_run
            (List.map (fun x => if N.eqb NBSP x then SPACE else x) s))) = true.
Proof.
  set (f := fun x => if N.eqb X92 x then 39%N else x).
  set (g := fun x => if N.eqb NBSP x then SPACE else x).
  assert (f SPACE = SPACE) as HfS by reflexivity.
  assert (isspace SPACE = true) as HsS by reflexivity.
  assert (isspace 39%N = false) as Hs39 by reflexivity.
  induction s as [|c r IH]; intros in_run; [reflexivity|].
  rewrite map_cons, sub_spaces_cons.
  assert (isspace (g c) = true /\ isspace c = true \/
          isspace (g c) = false /\ g c = c /\ isspace c = false) as Hg.
  { unfold g. destruct (N.eqb_spec NBSP c) as [<-|Hn].
    - left. split; reflexivity.
    - destruct (isspace c); [left | right]; auto. }
  destruct Hg as [[Hgc Hc]|(Hgc & Hgeq & Hc)]; rewrite Hgc.
  - destruct in_run.
    + rewrite app_nil_l. apply IH.
    + change ([SPACE] ++ sub_spaces [SPACE] true (List.map g r))
        with (SPACE :: sub_spaces [SPACE] true (List.map g r)).
      rewrite map_cons, HfS, scrubbed_from_cons, HsS, N.eqb_refl, IH.
      reflexivity.
  - rewrite Hgeq, map_cons, scrubbed_from_cons.
    assert (isspace (f c) = false /\ N.eqb (f c) X92 = false) as [Hfs Hfx].
    { unfold f. destruct (N.eqb_spec X92 c) as [<-|Hx];
        [split; reflexivity|].
      split; [exact Hc | apply N.eqb_neq; congruence]. }
    rewrite Hfs, Hfx, IH. reflexivity.
Qed.

Lemma scrub_steps_fixed (s : str) :
  forall in_run,
    scrubbed_from in_run s = true ->
    List.map (fun x => if N.eqb X92 x then 39%N else x)
      (sub_spaces [SPACE] in_run
         (List.map (fun x => if N.eqb NBSP x then SPACE else x) s)) = s.
Proof.
  set (f := fun x => if N.eqb X92 x then 39%N else x).
  set (g := fun x => if N.eqb NBSP x then SPACE else x).
  assert (isspace NBSP = true) as HsN by reflexivity.
  induction s as [|c r IH]; intros in_run; [reflexivity|].
  rewrite scrubbed_from_cons, map_cons, sub_spaces_cons.
  destruct (isspace c) eqn:Hc.
  - rewrite !andb_true_iff, negb_true_iff. intros [[Hsp ->] Hr].
    apply N.eqb_eq in Hsp. subst c.
    change (g SPACE) with SPACE. rewrite Hc.
    change ([SPACE] ++ sub_spaces [SPACE] true (List.map g r))
      with (SPACE :: sub_spaces [SPACE] true (List.map g r)).
    rewrite map_cons, (IH true Hr). reflexivity.
  - rewrite andb_true_iff, negb_true_iff. intros [Hx Hr].
    assert (g c = c) as Hg.
    { unfold g. destruct (N.eqb_spec NBSP c) as [<-|Hn];
        [congruence | reflexivity]. }
    rewrite Hg, Hc, map_cons, (IH false Hr).
    unfold f. rewrite N.eqb_sym, Hx. reflexivity.
Qed.

(** X1.  [scrub_text] returns a text in normal form: its only whitespace
    characters are spaces, no two of them in a row, and it holds no
    [\x92]; a text in normal form is returned as it is; hence scrubbing
    twice is scrubbing once. *)
Theorem scrub_text_normal_form (s : str) :
  scrubbed (scrub_text s) = true /\
  (scrubbed s = true -> scrub_text s = s) /\
  scrub_text (scrub_text s) = scrub_text s.
Proof.
  assert (scrubbed (scrub_text s) = true) as Hn
    by (rewrite scrub_text_steps; apply scrub_steps_scrubbed).
  assert (forall t, scrubbed t = true -> scrub_text t = t) as Hfix
    by (intros t Ht; rewrite scrub_text_steps; apply scrub_steps_fixed, Ht).
  split; [exact Hn|]. split; [apply Hfix | apply Hfix, Hn].
Qed.

(** A text in normal form is left as it is. *)
Lemma scrub_text_normal_form_witness :
  scrub_text (u "Acme Corp") = u "Acme Corp".
Proof.
  apply (proj1 (proj2 (scrub_text_normal_form (u "Acme Corp")))).
  reflexivity.
Defined.

(** ** Empty tags *)

Lemma lstrip_nil (s : str) :
  lstrip s = [] <-> Forall (fun c => isspace c = true) s.
Proof.
  induction s as [|c r IH]; simpl.
  - split; [constructor | reflexivity].
  - destruct (isspace c) eqn:Hc.
    + rewrite IH. split; [intros Hr; constructor; assumption|].
      intros Hall. apply Forall_inv_tail in Hall. exact Hall.
    + split; [discriminate|]. intros Hall. apply Forall_inv in Hall.
      congruence.
Qed.

Lemma strip_nil (s : str) :
  strip s = [] <-> Forall (fun c => isspace c = true) s.
Proof.
  rewrite <- lstrip_nil. unfold strip.
  destruct (lstrip_head s) as [->|(c & r & -> & Hc)]; [tauto|].
  rewrite (rstrip_nonspace _ _ Hc). split; discriminate.
Qed.

Lemma scrub_text_head_nonspace (c : N) (r : str) :
  isspace c = false ->
  exists c' r', scrub_text (c :: r) = c' :: r' /\ isspace c' = false.
Proof.
  intros Hc. rewrite scrub_text_steps, map_cons.
  destruct (N.eqb_spec NBSP c) as [<-|Hn]; [discriminate|].
  rewrite sub_spaces_cons, Hc, map_cons.
  destruct (N.eqb_spec X92 c) as [<-|Hx]; eauto.
Qed.

(** X2.  A tag is empty for the parsers exactly when its text is made of
    whitespace only (no character at all included): such cells and
    paragraphs are the ones that the parsers skip. *)
Theorem empty_tag_iff_blank (t : Tag) :
  empty_tag t = true <-> Forall (fun c => isspace c = true) t.
Proof.
  unfold empty_tag. rewrite str_eqb_eq. unfold scrub_tag.
  rewrite <- strip_nil. split.
  - intros He. destruct (strip t) as [|c r] eqn:Hs; [reflexivity|].
    exfalso.
    assert (isspace c = false) as Hc.
    { unfold strip in Hs. destruct (lstrip_head t) as [Hl|(c0 & r0 & Hl & Hc0)];
        rewrite Hl in Hs; [discriminate|].
      rewrite (rstrip_nonspace _ _ Hc0) in Hs. congruence. }
    destruct (scrub_text_head_nonspace c r Hc) as (c' & r' & Heq & Hc').
    rewrite Heq, (strip_nonspace _ _ Hc') in He. discriminate.
  - intros ->. reflexivity.
Qed.

(** ** What parse_int reads *)

Lemma sub_spaces_nil_filter (s : str) :
  forall in_run,
    sub_spaces [] in_run s = filter (fun c => negb (isspace c)) s.
Proof.
  induction s as [|c r IH]; intros in_run; [reflexivity|]. simpl.
  destruct (isspace c); simpl.
  - destruct in_run; apply IH.
  - rewrite IH. reflexivity.
Qed.

Lemma replace_comma_filter (s : str) :
  replace [COMMA] [] s = filter (fun c => negb (N.eqb c COMMA)) s.
Proof.
  induction s as [|c r IH]; [reflexivity|].
  rewrite replace1_cons, IH. cbn [filter]. rewrite (N.eqb_sym c COMMA).
  destruct (N.eqb COMMA c); reflexivity.
Qed.

Lemma filter_lstrip (p : N -> bool) (s : str) :
  (forall c, isspace c = true -> p c = false) ->
  filter p (lstrip s) = filter p s.
Proof.
  intros Hp. induction s as [|c r IH]; [reflexivity|]. simpl.
  destruct (isspace c) eqn:Hc; [|reflexivity].
  rewrite (Hp c Hc). exact IH.
Qed.

Lemma filter_rstrip (p : N -> bool) (s : str) :
  (forall c, isspace c = true -> p c = false) ->
  filter p (rstrip s) = filter p s.
Proof.
  intros Hp. induction s as [|c r IH]; [reflexivity|]. simpl.
  destruct (rstrip r) as [|d r'] eqn:Hr.
  - simpl in IH. destruct (isspace c) eqn:Hc.
    + rewrite (Hp c Hc). exact IH.
    + simpl. rewrite <- IH. reflexivity.
  - simpl filter at 1. rewrite <- IH. reflexivity.
Qed.

Lemma filter_and (p q : N -> bool) (s : str) :
  filter p (filter q s) = filter (fun c => q c && p c) s.
Proof.
  induction s as [|c r IH]; [reflexivity|]. simpl.
  destruct (q c); simpl; [destruct (p c)|]; rewrite IH; reflexivity.
Qed.

(** X4.  [parse_int] reads the cell with every comma and every whitespace
    character deleted, wherever they stand: the text that it tests
    against the placeholders and hands to [int] is the cell filtered so;
    two cells that differ only in commas and whitespace get the same
    result. *)
Theorem parse_int_reads_significant `{PyRuntime} (s : str) :
  parse_int_text s = filter significant s /\
  (forall s' : str,
     filter significant s' = filter significant s ->
     parse_int s' = parse_int s).
Proof.
  assert (forall t, parse_int_text t = filter significant t) as Ht.
  { intros t. unfold parse_int_text.
    rewrite sub_spaces_nil_filter, replace_comma_filter, filter_and.
    unfold strip.
    rewrite filter_rstrip, filter_lstrip; [reflexivity | |];
      intros c Hc; rewrite Hc, andb_false_r; reflexivity. }
  split; [apply Ht|].
  intros s' Heq. unfold parse_int. rewrite !Ht, Heq. reflexivity.
Qed.

(** The cells [1,234] and [ 12 34 ] are read alike. *)
Lemma parse_int_reads_significant_witness :
  parse_int (u " 12 34 ") = parse_int (u "1,234").
Proof.
  apply (proj2 (parse_int_reads_significant (u "1,234")) (u " 12 34 ")).
  reflexivity.
Defined.

(** ** The rows of a column *)

Lemma add_tr_last (pre : list (list Tag)) (l tr : list Tag) :
  add_tr (pre ++ [l]) tr = (pre ++ filter has_cells [l]) ++ [nonempty tr].
Proof.
  unfold add_tr. rewrite last_last. destruct l as [|x l]; cbn [filter has_cells].
  - rewrite last_last, removelast_last, app_nil_r. reflexivity.
  - rewrite last_last, removelast_last. reflexivity.
Qed.

Lemma gather_rows_from (col : Column) :
  forall (pre : list (list Tag)) (l : list Tag),
    fold_left add_tr col (pre ++ [l]) =
    pre ++ filter has_cells (removelast (l :: List.map nonempty col))
        ++ [last (l :: List.map nonempty col) []].
Proof.
  induction col as [|tr col IH]; intros pre l.
  - reflexivity.
  - cbn [fold_left]. rewrite add_tr_last, IH, <- app_assoc.
    f_equal. cbn [List.map].
    change (removelast (l :: nonempty tr :: List.map nonempty col))
      with (l :: removelast (nonempty tr :: List.map nonempty col)).
    change (last (l :: nonempty tr :: List.map nonempty col) [])
      with (last (nonempty tr :: List.map nonempty col) []).
    change (l :: removelast (nonempty tr :: List.map nonempty col))
      with ([l] ++ removelast (nonempty tr :: List.map nonempty col)).
    rewrite filter_app, <- app_assoc. reflexivity.
Qed.

Lemma concat_filter_has_cells (rows : list (list Tag)) :
  List.concat (filter has_cells rows) = List.concat rows.
Proof.
  induction rows as [|[|x r] rows IH]; [reflexivity | exact IH |].
  cbn [filter has_cells]. rewrite !concat_cons, IH. reflexivity.
Qed.

(** X3.  The rows that [parse_holdings_column] gathers from a table are,
    in order, the [tr] that have a non-empty cell, each with its non-empty
    cells; a [tr] without any is skipped, except that the last row
    gathered is the last [tr] as it is (an empty row for an empty one, and
    for a table without [tr]).  No non-empty cell is lost or moved. *)
Theorem gather_rows_shape (col : Column) :
  gather_rows col =
    filter has_cells (removelast ([] :: List.map nonempty col))
    ++ [last ([] :: List.map nonempty col) []] /\
  List.concat (gather_rows col) = flat_map nonempty col.
Proof.
  assert (gather_rows col =
          filter has_cells (removelast ([] :: List.map nonempty col))
          ++ [last ([] :: List.map nonempty col) []]) as Hshape
    by (unfold gather_rows; apply (gather_rows_from col [] [])).
  split; [exact Hshape|].
  rewrite Hshape, concat_app, concat_filter_has_cells, <- concat_app.
  rewrite <- app_removelast_last by discriminate.
  rewrite flat_map_concat_map. reflexivity.
Qed.

(** ** The version of a page and what is read with it *)

Lemma index_raises {A : Type} (l : list A) (i : nat) (e : exn) :
  index l i = Raise e -> e = IndexError.
Proof. unfold index. destruct (nth_error l i); congruence. Qed.

Lemma index_three {A : Type} (l : list A) :
  (exists a b c more, l = a :: b :: c :: more) \/ length l < 3.
Proof.
  destruct l as [|a [|b [|c more]]]; simpl; try (right; lia).
  left. eauto.
Qed.

(** The three cells that [header_cells] picks from a list of tags. *)
Lemma pick_three (l : list Tag) (k : Tag -> Tag -> Tag -> str * str * str) :
  (x <- index l 0 ;; y <- index l 1 ;; z <- index l 2 ;; OK (k x y z)) =
  match l with
  | a :: b :: c :: _ => OK (k a b c)
  | _ => Raise IndexError
  end.
Proof. destruct l as [|a [|b [|c more]]]; reflexivity. Qed.

Lemma header_cells_raises (page : Page) (version : Z) (e : exn) :
  New.header_cells page version = Raise e ->
  (e = IndexError /\ (version = 1%Z \/ version = 2%Z)) \/
  (e = ValueError /\ version <> 1%Z /\ version <> 2%Z).
Proof.
  unfold New.header_cells.
  destruct (Z.eqb_spec version 1) as [->|H1].
  - rewrite (pick_three _ (fun a b c => (scrub_tag a, scrub_tag b, scrub_tag c))).
    destruct (nonempty (page_leading_p page)) as [|a [|b [|c more]]];
      intros [= <-]; auto.
  - destruct (Z.eqb_spec version 2) as [->|H2]; [|intros [= <-]; auto].
    unfold index at 1.
    destruct (nth_error (page_tables page) 0) as [header|];
      [|intros [= <-]; auto].
    cbn [bind].
    rewrite (pick_three _ (fun a b c => (scrub_tag a, scrub_tag c, scrub_tag b))).
    rewrite (pick_three _ (fun a b c => (scrub_tag a, scrub_tag b, scrub_tag c))).
    destruct (Nat.leb 3 (length (nonempty (table_p header)))).
    + destruct (nonempty (table_p header)) as [|a [|b [|c more]]];
        intros [= <-]; auto.
    + destruct (nonempty (table_td header)) as [|a [|b [|c more]]];
        intros [= <-]; auto.
Qed.

(** X5.  The version that [get_subversion] returns for a page is always
    one that [extract_holdings_columns] and [parse_header_info] know, and
    on that page it selects exactly two columns: the first two tables for
    version 1, the second and the third for version 2 (the heading table
    and what follows the columns are left out). *)
Theorem subversion_selects_two_columns (page : Page) (version : Z) :
  New.get_subversion page = OK version ->
  (version = 1%Z \/ version = 2%Z) /\
  New.header_cells page version <> Raise ValueError /\
  exists c1 c2,
    New.extract_holdings_columns page version = OK [c1; c2] /\
    (version = 1%Z ->
       nth_error (page_tables page) 0 = Some c1 /\
       nth_error (page_tables page) 1 = Some c2) /\
    (version = 2%Z ->
       nth_error (page_tables page) 1 = Some c1 /\
       nth_error (page_tables page) 2 = Some c2).
Proof.
  intros Hv.
  assert (version = 1%Z \/ version = 2%Z) as Hversion.
  { unfold New.get_subversion in Hv.
    destruct (page_tables page) as [|t0 [|t1 [|t2 [|t3 [|t4 ts]]]]];
      try discriminate.
    - destruct (negb (re_search New.soi (strip (table_prettify t0))));
        injection Hv as <-; auto.
    - injection Hv as <-; auto. }
  split; [exact Hversion|]. split.
  - intros Hraise. apply header_cells_raises in Hraise.
    destruct Hraise as [[? _]|(_ & H1 & H2)]; [discriminate|].
    destruct Hversion; contradiction.
  - unfold New.get_subversion in Hv. unfold New.extract_holdings_columns.
    destruct (page_tables page) as [|t0 [|t1 [|t2 [|t3 [|t4 ts]]]]];
      try discriminate.
    + destruct (negb (re_search New.soi (strip (table_prettify t0))));
        injection Hv as <-.
      * exists t0, t1. split; [reflexivity|].
        split; [intros _; split; reflexivity | discriminate].
      * exists t1, t2. split; [reflexivity|].
        split; [discriminate | intros _; split; reflexivity].
    + injection Hv as <-. exists t1, t2. split; [reflexivity|].
      split; [discriminate | intros _; split; reflexivity].
Qed.

(** A page with its heading in a table of its own and two columns. *)
Lemma subversion_selects_two_columns_witness :
  New.extract_holdings_columns
    {| page_text := []; page_leading_p := []; page_p := [];
       page_tables := [rows_table []; rows_table [heading_row];
                       rows_table [heading_row]; rows_table []] |} 2 =
  OK [rows_table [heading_row]; rows_table [heading_row]].
Proof.
  destruct (subversion_selects_two_columns
              {| page_text := []; page_leading_p := []; page_p := [];
                 page_tables := [rows_table []; rows_table [heading_row];
                                 rows_table [heading_row]; rows_table []] |}
              2 eq_refl) as (_ & _ & c1 & c2 & Hcols & _ & H2).
  destruct (H2 eq_refl) as [H21 H22].
  injection H21 as <-. injection H22 as <-. exact Hcols.
Defined.

(** X6.  What [parse_header_info] picks on a modern page.  Version 1 needs
    three non-empty paragraphs before the first table, version 2 a first
    table with three non-empty paragraphs or, failing that, three
    non-empty cells: with less it is an [IndexError]; another version is a
    [ValueError].  In version 2 the paragraphs are read as title, date,
    name, and the cells as title, name, date; the paragraphs are preferred
    whenever there are three of them. *)
Theorem header_cells_picks (page : Page) :
  (New.header_cells page 1 = Raise IndexError <->
     length (nonempty (page_leading_p page)) < 3) /\
  (New.header_cells page 2 = Raise IndexError <->
     match page_tables page with
     | [] => True
     | header :: _ =>
         length (nonempty (table_p header)) < 3 /\
         length (nonempty (table_td header)) < 3
     end) /\
  (forall version, version <> 1%Z -> version <> 2%Z ->
     New.header_cells page version = Raise ValueError) /\
  (forall header rest a b c more,
     page_tables page = header :: rest ->
     nonempty (table_p header) = a :: b :: c :: more ->
     New.header_cells page 2 = OK (scrub_tag a, scrub_tag c, scrub_tag b)) /\
  (forall header rest a b c more,
     page_tables page = header :: rest ->
     length (nonempty (table_p header)) < 3 ->
     nonempty (table_td header) = a :: b :: c :: more ->
     New.header_cells page 2 = OK (scrub_tag a, scrub_tag b, scrub_tag c)).
Proof.
  split; [|split; [|split; [|split]]].
  - unfold New.header_cells. cbn [Z.eqb Pos.eqb].
    rewrite (pick_three _ (fun a b c => (scrub_tag a, scrub_tag b, scrub_tag c))).
    destruct (nonempty (page_leading_p page)) as [|a [|b [|c more]]];
      simpl; split; intros; try reflexivity; try lia; discriminate.
  - unfold New.header_cells. cbn [Z.eqb Pos.eqb]. unfold index at 1.
    destruct (page_tables page) as [|header rest]; cbn [nth_error bind];
      [tauto|].
    rewrite (pick_three _ (fun a b c => (scrub_tag a, scrub_tag c, scrub_tag b))).
    rewrite (pick_three _ (fun a b c => (scrub_tag a, scrub_tag b, scrub_tag c))).
    destruct (Nat.leb_spec 3 (length (nonempty (table_p header)))) as [Hp|Hp].
    + destruct (nonempty (table_p header)) as [|a [|b [|c more]]];
        simpl in Hp; try lia.
      split; [discriminate | simpl; lia].
    + destruct (nonempty (table_td header)) as [|a [|b [|c more]]];
        simpl; split; intros; try reflexivity; try lia; try discriminate.
  - intros version H1 H2. unfold New.header_cells.
    destruct (Z.eqb_spec version 1); [contradiction|].
    destruct (Z.eqb_spec version 2); [contradiction | reflexivity].
  - intros header rest a b c more Ht Hp. unfold New.header_cells.
    cbn [Z.eqb Pos.eqb]. unfold index at 1. rewrite Ht. cbn [nth_error bind].
    rewrite Hp. reflexivity.
  - intros header rest a b c more Ht Hp Htd. unfold New.header_cells.
    cbn [Z.eqb Pos.eqb]. unfold index at 1. rewrite Ht. cbn [nth_error bind].
    destruct (Nat.leb_spec 3 (length (nonempty (table_p header)))); [lia|].
    rewrite Htd. reflexivity.
Qed.

(** The heading table of a page of the second sub-version: the second
    paragraph is the date, the third one the name. *)
Lemma header_cells_picks_witness :
  New.header_cells second_version_page 2 =
  OK (scrub_tag (u "Schedule of Investments"),
      scrub_tag (u "iShares Russell 3000 ETF"),
      scrub_tag (u "2019-03-31")).
Proof.
  apply (proj1 (proj2 (proj2 (proj2 (header_cells_picks second_version_page))))
           heading_table
           [rows_table [heading_row]; rows_table [heading_row]; empty_table]
           (u "Schedule of Investments") (u "2019-03-31")
           (u "iShares Russell 3000 ETF") []).
  - reflexivity.
  - vm_compute. reflexivity.
Defined.

(** ** The sectors of the holdings of a modern filing *)

Section New_sectors.
Context `{PyRuntime}.

Lemma derive_sectors (hs : list Holding) :
  forall acc acc',
    New.derive acc hs = OK acc' ->
    Forall (fun h => SECTOR h <> None) hs.
Proof.
  induction hs as [|h hs IH]; intros acc acc'; [constructor|]. simpl.
  destruct (SECTOR h) as [s0|] eqn:Hs0; [|discriminate].
  intros Hd. constructor; [congruence | apply (IH _ _ Hd)].
Qed.

Lemma aggregate_sectors (results : list New.PageResult) :
  forall prev acc acc',
    New.aggregate prev acc results = OK acc' ->
    Forall (fun h => SECTOR h <> None)
      (flat_map (fun r => HOLDINGS (New.BODY r)) results).
Proof.
  induction results as [|r rest IH]; intros prev acc acc'; [constructor|].
  simpl.
  destruct (match prev with
            | Some p =>
                _ <- assert (str_eqb (ETF_NAME (New.HEADER r))
                                     (ETF_NAME (New.HEADER p))) ;;
                assert (timestamp_eqb (REPORT_DATE (New.HEADER r))
                                      (REPORT_DATE (New.HEADER p)))
            | None => OK tt
            end) as [[]|]; [|discriminate].
  cbn [bind].
  destruct (New.derive _ (HOLDINGS (New.BODY r))) as [acc1|] eqn:Hder;
    [|discriminate].
  cbn [bind]. intros Hagg. apply Forall_app. split.
  - apply (derive_sectors _ _ _ Hder).
  - apply (IH _ _ _ Hagg).
Qed.

End New_sectors.

(** X7.  The modern [parse_filing] never returns a holding without a
    sector: every holding returned carries a normalized label; a holding
    row read before any sector label makes it raise. *)
Theorem modern_holdings_have_sector `{PyRuntime} (candidates : list Page) :
  (forall out,
     New.parse_filing candidates = OK out ->
     Forall (fun h => exists label,
                        SECTOR h = Some (New.normalize_sector label))
            (holdings out)) /\
  (forall results r h,
     New.page_results candidates = OK results ->
     In r results -> In h (HOLDINGS (New.BODY r)) -> SECTOR h = None ->
     exists e, New.parse_filing candidates = Raise e).
Proof.
  assert (forall results out,
            New.page_results candidates = OK results ->
            New.parse_filing candidates = OK out ->
            Forall (fun h => SECTOR h <> None)
              (flat_map (fun r => HOLDINGS (New.BODY r)) results) /\
            holdings out = new_holdings results) as Hall.
  { intros results out Hres. unfold New.parse_filing. rewrite Hres.
    cbn [bind]. intros Hrec. split.
    - unfold New.reconcile in Hrec.
      destruct (New.aggregate None _ results) as [agg|] eqn:Hagg;
        [|discriminate].
      apply (aggregate_sectors _ _ _ _ Hagg).
    - apply new_reconcile_ok in Hrec. apply Hrec. }
  split.
  - intros out Hp.
    destruct (New.page_results candidates) as [results|] eqn:Hres;
      [|unfold New.parse_filing in Hp; rewrite Hres in Hp; discriminate].
    destruct (Hall results out eq_refl Hp) as [Hsome ->].
    unfold new_holdings. apply Forall_map.
    eapply Forall_impl; [|exact Hsome].
    intros h Hh. cbv beta in Hh. unfold normalized. simpl.
    destruct (SECTOR h) as [label|];
      [exists label; reflexivity | exfalso; apply Hh; reflexivity].
  - intros results r h Hres Hr Hh Hnone.
    destruct (New.parse_filing candidates) as [out|e] eqn:Hp; [|eauto].
    exfalso. destruct (Hall results out Hres eq_refl) as [Hsome _].
    rewrite Forall_forall in Hsome. apply (Hsome h); [|exact Hnone].
    apply in_flat_map. exists r. auto.
Qed.

(** The holdings of a filing of one page. *)
Lemma modern_holdings_have_sector_witness :
  Forall (fun h => exists label,
                     SECTOR h = Some (New.normalize_sector label))
         [acme; beta].
Proof.
  apply (proj1 (modern_holdings_have_sector
                  [modern_page "2019-03-31" (technology_column "50,000")
                     (energy_column "60,000")])
           {| etf_name :=
                u "ishares" ++ [REGISTERED] ++ u " russell 3000 etf";
              report_date := At 20190331;
              holdings := [acme; beta] |}).
  vm_compute. reflexivity.
Defined.

(** ** Nothing is read after the grand total *)

Section After_total.
Context `{PyRuntime}.

Lemma new_parse_pages_stops (pages : list Page) :
  forall is_first_page version current_sector results,
    New.parse_pages pages is_first_page version current_sector = OK results ->
    new_hit results = true ->
    forall extra,
      New.parse_pages (pages ++ extra) is_first_page version current_sector
      = OK results.
Proof.
  induction pages as [|page rest IH];
    intros is_first_page version current_sector results.
  - simpl. intros [= <-]. discriminate.
  - cbn [New.parse_pages app].
    destruct (New.parse_holdings_page page is_first_page version
                current_sector) as [res|]; [|discriminate].
    cbn [bind].
    destruct (HIT_TOTAL_COMMON_STOCKS (New.BODY res)) eqn:Hhit.
    + intros [= <-] _ extra. reflexivity.
    + destruct (New.parse_pages rest false version _) as [more|] eqn:Hmore;
        [|discriminate].
      cbn [bind]. intros [= <-]. unfold new_hit. cbn [existsb].
      rewrite Hhit. cbn [orb]. intros Hexists extra.
      rewrite (IH _ _ _ _ Hmore Hexists extra). reflexivity.
Qed.

Lemma old_parse_tables_hit (tables : list Table) :
  forall first_page current_sector results hit current_sector',
    Old.parse_tables tables first_page current_sector
    = OK (results, hit, current_sector') ->
    hit = old_hit results.
Proof.
  induction tables as [|table rest IH];
    intros first_page current_sector results hit current_sector'.
  - simpl. intros [= <- <- _]. reflexivity.
  - cbn [Old.parse_tables].
    destruct (Old.parse_holdings_column (table_trs table) first_page
                current_sector first_page) as [res|]; [|discriminate].
    cbn [bind].
    destruct (HIT_TOTAL_COMMON_STOCKS res) eqn:Hhit.
    + intros [= <- <- _]. unfold old_hit. simpl. rewrite Hhit. reflexivity.
    + destruct (Old.parse_tables rest first_page (CURRENT_SECTOR res))
        as [[[results0 hit0] cs0]|] eqn:Hmore; [|discriminate].
      cbn [bind]. intros [= <- <- _].
      unfold old_hit. cbn [existsb]. rewrite Hhit.
      apply (IH _ _ _ _ _ Hmore).
Qed.

Lemma old_parse_pages_stops (pages : list Page) :
  forall first_page current_sector results,
    Old.parse_pages pages first_page current_sector = OK results ->
    old_hit results = true ->
    forall extra,
      Old.parse_pages (pages ++ extra) first_page current_sector = OK results.
Proof.
  induction pages as [|page rest IH]; intros first_page current_sector results.
  - simpl. intros [= <-]. discriminate.
  - cbn [Old.parse_pages app].
    destruct (Old.parse_tables (page_tables page) first_page current_sector)
      as [[[results0 hit] cs]|] eqn:Htab; [|discriminate].
    cbn [bind]. apply old_parse_tables_hit in Htab.
    destruct hit.
    + intros [= <-] _ extra. reflexivity.
    + destruct (Old.parse_pages rest false cs) as [more|] eqn:Hmore;
        [|discriminate].
      cbn [bind]. intros [= <-]. unfold old_hit. rewrite existsb_app.
      fold (old_hit results0). rewrite <- Htab. cbn [orb].
      intros Hexists extra.
      rewrite (IH _ _ _ Hmore Hexists extra). reflexivity.
Qed.

Lemma old_keep_pages_prefix (candidates extra : list Page) :
  forall store,
    exists tail,
      Old.keep_pages store (candidates ++ extra) =
      Old.keep_pages store candidates ++ tail.
Proof.
  induction candidates as [|p rest IH]; intros store.
  - exists (Old.keep_pages store extra). reflexivity.
  - cbn [Old.keep_pages app].
    destruct (if Old.opens_schedule p then true else store).
    + destruct (re_match Old.cmn (page_text p)).
      * exists []. reflexivity.
      * destruct (IH true) as [tail ->]. exists tail. reflexivity.
    + apply IH.
Qed.

End After_total.

(** X8.  Once a page of a modern filing has met the grand total, nothing
    that follows is read: whatever candidate pages are put after the
    filing, [parse_filing] returns the same. *)
Theorem modern_ignores_pages_after_total `{PyRuntime}
    (candidates : list Page) (results : list New.PageResult) :
  New.page_results candidates = OK results ->
  new_hit results = true ->
  forall extra,
    New.parse_filing (candidates ++ extra) = New.parse_filing candidates.
Proof.
  intros Hres Hhit extra. unfold New.parse_filing.
  replace (New.page_results (candidates ++ extra))
    with (New.page_results candidates); [reflexivity|].
  rewrite Hres. unfold New.page_results in *.
  unfold New.extract_pages in *. rewrite filter_app.
  destruct (filter New.relevant candidates) as [|first pages] eqn:Hf;
    [discriminate|].
  cbn [app index nth_error bind] in *.
  destruct (New.get_subversion first) as [version|]; [|discriminate].
  cbn [bind] in *.
  change (first :: pages ++ filter New.relevant extra)
    with ((first :: pages) ++ filter New.relevant extra).
  symmetry. apply new_parse_pages_stops; assumption.
Qed.

(** The modern filing of one page, followed by a page that no parser could
    read. *)
Lemma modern_ignores_pages_after_total_witness :
  New.parse_filing
    ([modern_page "2019-03-31" (technology_column "50,000")
        (energy_column "60,000")] ++ [stray_page]) =
  New.parse_filing
    [modern_page "2019-03-31" (technology_column "50,000")
       (energy_column "60,000")].
Proof.
  destruct (New.page_results
              [modern_page "2019-03-31" (technology_column "50,000")
                 (energy_column "60,000")]) as [results|] eqn:Hres;
    [|vm_compute in Hres; discriminate].
  apply (modern_ignores_pages_after_total _ results Hres).
  vm_compute in Hres. injection Hres as <-. reflexivity.
Defined.

(** X9.  Once a table of a legacy filing has met the grand total, nothing
    that follows is read: whatever candidate pages are put after the
    filing, [parse_filing] returns the same. *)
Theorem legacy_ignores_pages_after_total `{PyRuntime}
    (candidates : list Page) (results : list ColumnResult) :
  Old.column_results (Old.extract_pages candidates) = OK results ->
  old_hit results = true ->
  forall extra,
    Old.parse_filing (candidates ++ extra) = Old.parse_filing candidates.
Proof.
  intros Hres Hhit extra. unfold Old.parse_filing.
  unfold Old.extract_pages in *.
  destruct (old_keep_pages_prefix candidates extra false) as [tail ->].
  unfold Old.column_results in *.
  rewrite (old_parse_pages_stops _ _ _ _ Hres Hhit tail), Hres.
  destruct (Old.keep_pages false candidates) as [|first pages];
    [simpl in Hres; injection Hres as <-; discriminate|].
  reflexivity.
Qed.

(** The legacy filing of two pages, followed by a page that no parser could
    read. *)
Lemma legacy_ignores_pages_after_total_witness :
  Old.parse_filing
    ([legacy_first_page; legacy_second_page "2010-03-31"] ++ [stray_page]) =
  Old.parse_filing [legacy_first_page; legacy_second_page "2010-03-31"].
Proof.
  destruct (Old.column_results
              (Old.extract_pages
                 [legacy_first_page; legacy_second_page "2010-03-31"]))
    as [results|] eqn:Hres; [|vm_compute in Hres; discriminate].
  apply (legacy_ignores_pages_after_total _ results Hres).
  vm_compute in Hres. injection Hres as <-. reflexivity.
Defined.

(** ** A filing without a page of the schedule *)

(** X10.  A filing none of whose candidate pages passes the page filter
    (modern: no relevant page; legacy: no page that opens the schedule) is
    refused with an [IndexError], before any page is parsed; so is a
    filing without candidate pages. *)
Theorem no_schedule_page_is_refused `{PyRuntime} (candidates : list Page) :
  (Forall (fun p => New.relevant p = false) candidates ->
   New.extract_pages candidates = [] /\
   New.parse_filing candidates = Raise IndexError) /\
  (Forall (fun p => Old.opens_schedule p = false) candidates ->
   Old.extract_pages candidates = [] /\
   Old.parse_filing candidates = Raise IndexError).
Proof.
  split; intros Hall.
  - assert (New.extract_pages candidates = []) as He.
    { unfold New.extract_pages.
      induction Hall as [|p rest Hp _ IH]; [reflexivity|].
      simpl. rewrite Hp. exact IH. }
    split; [exact He|].
    unfold New.parse_filing, New.page_results. rewrite He. reflexivity.
  - assert (Old.extract_pages candidates = []) as He.
    { unfold Old.extract_pages. rewrite <- (app_nil_r candidates).
      rewrite (keep_pages_before _ _ Hall). reflexivity. }
    split; [exact He|].
    unfold Old.parse_filing. rewrite He. reflexivity.
Qed.

(** A filing whose only page is a cover page. *)
Lemma no_schedule_page_is_refused_witness :
  New.parse_filing [cover_page] = Raise IndexError /\
  Old.parse_filing [cover_page] = Raise IndexError.
Proof.
  split.
  - apply (proj1 (no_schedule_page_is_refused [cover_page])).
    constructor; [vm_compute; reflexivity | constructor].
  - apply (proj2 (no_schedule_page_is_refused [cover_page])).
    constructor; [vm_compute; reflexivity | constructor].
Defined.

(** ** Sectors without holdings, filings without holdings *)

Section Empty_sectors.
Context `{PyRuntime}.



End Empty_sectors.



(** A sector [Utilities] with the subtotal [0] and no holding. *)
Example empty_sector_is_refused :
  New.parse_filing
    [modern_page "2019-03-31" (technology_column "50,000")
       empty_sector_column] = Raise KeyError.
Proof. vm_compute. reflexivity. Qed.



(** A legacy page with a grand total of zero and no holding. *)
Example legacy_page_without_holdings :
  Old.parse_filing [page_without_holdings] = Raise AttributeError.
Proof. vm_compute. reflexivity. Qed.

(** ** A subtotal reported twice under one label *)

Lemma dict_set_keys {V : Type} (d : dict V) (k k' : str) (v : V) :
  In k' (List.map fst (dict_set d k v)) <-> k' = k \/ In k' (List.map fst d).
Proof.
  induction d as [|[k0 v0] d IH]; simpl.
  - intuition congruence.
  - destruct (str_eqb_spec k k0) as [->|Hk]; simpl.
    + intuition congruence.
    + rewrite IH. intuition congruence.
Qed.

Lemma dict_set_distinct {V : Type} (d : dict V) (k : str) (v : V) :
  distinct_keys d -> distinct_keys (dict_set d k v).
Proof.
  unfold distinct_keys. induction d as [|[k0 v0] d IH]; simpl; intros Hd.
  - repeat constructor. intros [].
  - apply NoDup_cons_iff in Hd. destruct Hd as [Hnot Hd].
    destruct (str_eqb_spec k k0) as [->|Hk]; simpl.
    + constructor; assumption.
    + constructor; [|apply IH, Hd].
      rewrite dict_set_keys. intros [->|Hin]; [congruence | contradiction].
Qed.

Lemma dict_merge_distinct {V : Type} (b0 : dict V) :
  forall a, distinct_keys a -> distinct_keys (dict_merge a b0).
Proof.
  unfold dict_merge. induction b0 as [|[k v] b0 IH]; intros a Ha; [exact Ha|].
  simpl. apply IH, dict_set_distinct, Ha.
Qed.

Lemma dict_get_absent {V : Type} (d : dict V) (k : str) :
  ~ In k (List.map fst d) -> dict_get d k = None.
Proof.
  induction d as [|[k0 v0] d IH]; simpl; [reflexivity|]. intros Hnot.
  destruct (str_eqb_spec k k0) as [->|Hk]; [tauto|]. apply IH. tauto.
Qed.

Lemma dict_get_merge {V : Type} (b0 : dict V) :
  distinct_keys b0 ->
  forall a k,
    dict_get (dict_merge a b0) k =
    match dict_get b0 k with
    | Some v => Some v
    | None => dict_get a k
    end.
Proof.
  unfold dict_merge, distinct_keys.
  induction b0 as [|[k0 v0] b0 IH]; intros Hb a k; [reflexivity|].
  simpl in Hb. apply NoDup_cons_iff in Hb. destruct Hb as [Hnot Hb].
  cbn [fold_left fst snd dict_get]. rewrite (IH Hb), dict_get_set.
  destruct (str_eqb_spec k k0) as [->|Hk]; [|reflexivity].
  rewrite (dict_get_absent _ _ Hnot). reflexivity.
Qed.

Lemma dict_get_merge_absent {V : Type} (b0 : dict V) (k : str) :
  forall a,
    dict_get b0 k = None ->
    dict_get (dict_merge a b0) k = dict_get a k.
Proof.
  unfold dict_merge. induction b0 as [|[k0 v0] b0 IHb]; intros a Hb;
    [reflexivity|].
  simpl in Hb. cbn [fold_left fst snd].
  destruct (str_eqb_spec k k0) as [->|Hk]; [discriminate|].
  rewrite (IHb _ Hb), dict_get_set.
  destruct (str_eqb_spec k k0); [contradiction | reflexivity].
Qed.

Section Distinct_totals.
Context `{PyRuntime}.

(** A turn of the classifier leaves the subtotals or sets one. *)
Lemma classify_totals (label : str -> str) (st st' : ColumnResult)
    (c : control) (parsed_row : list str) :
  classify label st parsed_row = OK (c, st') ->
  SECTOR_TOTALS st' = SECTOR_TOTALS st \/
  exists k v, SECTOR_TOTALS st' = dict_set (SECTOR_TOTALS st) k v.
Proof.
  destruct parsed_row as [|f0 [|f1 [|f2 [|f3 [|f4 more]]]]]; simpl.
  - intros [= _ <-]. auto.
  - destruct (is_int f0).
    + destruct (CURRENT_SECTOR st) as [cs|]; [|discriminate].
      destruct (assert _); [|discriminate]. cbn [bind].
      destruct (parse_int f0); [|discriminate]. cbn [bind].
      intros [= _ <-]. simpl. eauto.
    + intros [= _ <-]. auto.
  - destruct (parse_int f1); [|discriminate]. cbn [bind].
    intros [= _ <-]. simpl. eauto.
  - intros Hh. apply holding_row_inv in Hh.
    destruct Hh as (sh & va & _ & _ & _ & _ & Ht & _). auto.
  - destruct (assert _); [|discriminate]. cbn [bind].
    intros Hh. apply holding_row_inv in Hh.
    destruct Hh as (sh & va & _ & _ & _ & _ & Ht & _). auto.
  - discriminate.
Qed.

Lemma classify_rows_distinct (label : str -> str) (rows : list (list Tag)) :
  forall st st',
    distinct_keys (SECTOR_TOTALS st) ->
    classify_rows label st rows = OK st' ->
    distinct_keys (SECTOR_TOTALS st').
Proof.
  induction rows as [|row rest IH]; intros st st' Hd; simpl.
  - intros [= <-]. exact Hd.
  - destruct (classify label st (parse_row row)) as [[c st1]|] eqn:Hc;
      [|discriminate].
    cbn [bind fst snd].
    assert (distinct_keys (SECTOR_TOTALS st1)) as Hd1.
    { destruct (classify_totals _ _ _ _ _ Hc) as [->|(k & v & ->)];
        [exact Hd | apply dict_set_distinct, Hd]. }
    destruct c; [apply IH, Hd1 | intros [= <-]; exact Hd1].
Qed.

Lemma parse_holdings_column_distinct (label : str -> str) (col : Column)
    (is_first_column : bool) (current_sector : option str)
    (check_header : bool) (res : ColumnResult) :
  parse_holdings_column label col is_first_column current_sector check_header
    = OK res ->
  distinct_keys (SECTOR_TOTALS res).
Proof.
  unfold parse_holdings_column.
  destruct (if check_header then check_heading (gather_rows col) else OK tt);
    [|discriminate].
  cbn [bind].
  destruct (if is_first_column && check_header
            then _ <- check_common_stocks (gather_rows col) ;; OK 2
            else if check_header then OK 1 else OK 0); [|discriminate].
  cbn [bind]. apply classify_rows_distinct. constructor.
Qed.

End Distinct_totals.

Section Distinct_page_totals.
Context `{PyRuntime}.

Lemma parse_columns_distinct (cols : list Table) :
  forall i is_first_page acc res,
    distinct_keys (SECTOR_TOTALS acc) ->
    New.parse_columns cols i is_first_page acc = OK res ->
    distinct_keys (SECTOR_TOTALS res).
Proof.
  induction cols as [|col rest IH]; intros i is_first_page acc res Hd; simpl.
  - intros [= <-]. exact Hd.
  - destruct (New.parse_holdings_column (table_trs col)
                (Nat.eqb i 0 && is_first_page) (CURRENT_SECTOR acc))
      as [h|]; [|discriminate].
    cbn [bind].
    assert (distinct_keys (dict_merge (SECTOR_TOTALS acc) (SECTOR_TOTALS h)))
      as Hm by (apply dict_merge_distinct, Hd).
    destruct (HIT_TOTAL_COMMON_STOCKS h).
    + intros [= <-]. exact Hm.
    + apply IH. exact Hm.
Qed.

Lemma parse_pages_distinct (pages : list Page) :
  forall is_first_page version current_sector results,
    New.parse_pages pages is_first_page version current_sector = OK results ->
    Forall (fun r => distinct_keys (SECTOR_TOTALS (New.BODY r))) results.
Proof.
  induction pages as [|page rest IH];
    intros is_first_page version current_sector results; simpl.
  - intros [= <-]. constructor.
  - destruct (New.parse_holdings_page page is_first_page version
                current_sector) as [res|] eqn:Hres; [|discriminate].
    cbn [bind].
    assert (distinct_keys (SECTOR_TOTALS (New.BODY res))) as Hd.
    { unfold New.parse_holdings_page in Hres.
      destruct (New.parse_header_info page version); [|discriminate].
      cbn [bind] in Hres.
      destruct (New.extract_holdings_columns page version) as [cols|];
        [|discriminate].
      cbn [bind] in Hres.
      destruct (New.parse_columns cols 0 is_first_page _) as [body|] eqn:Hb;
        [|discriminate].
      cbn [bind] in Hres. injection Hres as <-. simpl.
      eapply parse_columns_distinct; [|exact Hb]. constructor. }
    destruct (HIT_TOTAL_COMMON_STOCKS (New.BODY res)).
    + intros [= <-]. constructor; [exact Hd | constructor].
    + destruct (New.parse_pages rest false version _) as [more|] eqn:Hmore;
        [|discriminate].
      cbn [bind]. intros [= <-]. constructor; [exact Hd|].
      apply (IH _ _ _ _ Hmore).
Qed.

Lemma new_reported_from (results : list New.PageResult) :
  forall d k,
    Forall (fun r => dict_get (SECTOR_TOTALS (New.BODY r)) k = None) results ->
    dict_get
      (fold_left (fun d r => dict_merge d (SECTOR_TOTALS (New.BODY r)))
         results d) k = dict_get d k.
Proof.
  induction results as [|r rest IH]; intros d k Hall; [reflexivity|].
  apply Forall_cons_iff in Hall. destruct Hall as [Hr Hrest].
  cbn [fold_left]. rewrite (IH _ _ Hrest).
  apply dict_get_merge_absent, Hr.
Qed.

End Distinct_page_totals.

(** X13.  When several pages of a modern filing report a subtotal under the
    same label, the total that [parse_filing] reconciles for that label is
    the one of the last of these pages: what the earlier pages reported
    under it is replaced, and compared with nothing. *)
Theorem later_subtotal_replaces `{PyRuntime} (pages : list Page)
    (is_first_page : bool) (version : Z) (current_sector : option str)
    (earlier later : list New.PageResult) (r : New.PageResult)
    (label : str) (total : option Z) :
  New.parse_pages pages is_first_page version current_sector
    = OK (earlier ++ r :: later) ->
  dict_get (SECTOR_TOTALS (New.BODY r)) label = Some total ->
  Forall (fun r' => dict_get (SECTOR_TOTALS (New.BODY r')) label = None)
    later ->
  dict_get (new_reported (earlier ++ r :: later)) label = Some total.
Proof.
  intros Hparse Hr Hlater.
  apply parse_pages_distinct in Hparse.
  apply Forall_app in Hparse. destruct Hparse as [_ Hd].
  apply Forall_inv in Hd.
  unfold new_reported. rewrite fold_left_app. cbn [fold_left].
  rewrite (new_reported_from _ _ _ Hlater).
  rewrite (dict_get_merge _ Hd), Hr. reflexivity.
Qed.

(** Two pages report a subtotal under [Technology] : the second one is
    kept. *)
Lemma later_subtotal_replaces_witness :
  exists results,
    New.page_results repeated_sector_filing = OK results /\
    dict_get (new_reported results) (u "Technology") = Some (Some 60000%Z).
Proof.
  destruct (New.parse_pages repeated_sector_filing true 1 None)
    as [results|] eqn:Hres; [|vm_compute in Hres; discriminate].
  exists results. split; [exact Hres|].
  pose proof Hres as Hres'. vm_compute in Hres'.
  match type of Hres' with
  | OK [?r1; ?r2] = OK _ =>
      assert (results = [r1] ++ r2 :: []) as Hsplit
        by (injection Hres' as <-; reflexivity);
      rewrite Hsplit in Hres |- *;
      apply (later_subtotal_replaces _ _ _ _ [r1] [] r2 _ _ Hres);
        [reflexivity | constructor]
  end.
Defined.

(** The filing parses, although the subtotal [99,999] reported for
    [Technology] on its first page is the sum of nothing. *)
Example repeated_sector_filing_parses :
  New.parse_filing repeated_sector_filing =
  OK {| etf_name := u "ishares" ++ [REGISTERED] ++ u " russell 3000 etf";
        report_date := At 20190331;
        holdings := [acme; gamma] |}.
Proof. vm_compute. reflexivity. Qed.

(** ** The set of separators *)

Lemma insert_sorted_comm (x y : nat) (l : list nat) :
  insert_sorted x (insert_sorted y l) = insert_sorted y (insert_sorted x l).
Proof.
  induction l as [|z l IH]; simpl.
  - destruct (Nat.leb_spec x y), (Nat.leb_spec y x); try reflexivity;
      try lia.
    replace y with x by lia. reflexivity.
  - destruct (Nat.leb_spec y z) as [Hyz|Hyz],
             (Nat.leb_spec x z) as [Hxz|Hxz]; simpl.
    + destruct (Nat.leb_spec x y), (Nat.leb_spec y x);
        destruct (Nat.leb_spec x z), (Nat.leb_spec y z);
        try reflexivity; try lia.
      replace y with x by lia. reflexivity.
    + destruct (Nat.leb_spec x y), (Nat.leb_spec y z),
               (Nat.leb_spec x z); try reflexivity; lia.
    + destruct (Nat.leb_spec y x), (Nat.leb_spec y z),
               (Nat.leb_spec x z); try reflexivity; lia.
    + destruct (Nat.leb_spec y z), (Nat.leb_spec x z); try lia.
      rewrite IH. reflexivity.
Qed.

Lemma sorted_permutation (l l' : list nat) :
  Permutation l l' -> sorted l = sorted l'.
Proof.
  induction 1 as [|x l l' _ IH|x y l|l l' l'' _ IH1 _ IH2]; simpl.
  - reflexivity.
  - rewrite IH. reflexivity.
  - apply insert_sorted_comm.
  - congruence.
Qed.

(** X14.  The candidate pages do not depend on the order in which the set
    of separators is gone through: any arrangement of the separators gives
    the same cut points and the same pages. *)
Theorem page_breaks_any_order (finditer : bytes -> bytes -> list nat)
    (page_separators seps : list bytes) (buf : bytes) :
  Permutation (get_page_separators page_separators) seps ->
  page_breaks finditer seps buf =
    page_breaks finditer (get_page_separators page_separators) buf /\
  segment_pages buf (page_breaks finditer seps buf) =
    candidate_pages finditer page_separators buf.
Proof.
  intros Hperm.
  assert (page_breaks finditer seps buf =
          page_breaks finditer (get_page_separators page_separators) buf)
    as Heq.
  { unfold page_breaks. apply sorted_permutation.
    apply Permutation_flat_map. symmetry. exact Hperm. }
  split; [exact Heq|]. unfold candidate_pages. rewrite Heq. reflexivity.
Qed.

(** The two quotings of a separator, taken in the other order. *)
Lemma page_breaks_any_order_witness :
  segment_pages (b "head<p class='pb'>one<p class='pb'>two<p class='pb'>tail")
    (page_breaks find_literal
       [b "<p class=" ++ [DQUOTE] ++ b "pb" ++ [DQUOTE] ++ b ">";
        b "<p class='pb'>"]
       (b "head<p class='pb'>one<p class='pb'>two<p class='pb'>tail")) =
  candidate_pages find_literal
    [b "<p class=" ++ [DQUOTE] ++ b "pb" ++ [DQUOTE] ++ b ">"]
    (b "head<p class='pb'>one<p class='pb'>two<p class='pb'>tail").
Proof.
  apply page_breaks_any_order.
  vm_compute. apply perm_swap.
Defined.

Lemma byte_eqb_neq (c d : Byte.byte) : c <> d -> Byte.eqb c d = false.
Proof.
  intros Hne. destruct (Byte.eqb c d) eqn:E; [|reflexivity].
  apply Byte.byte_dec_bl in E. contradiction.
Qed.

Lemma sub_byte_quotes (sep : bytes) :
  sub_byte DQUOTE SQUOTE (sub_byte DQUOTE SQUOTE sep)
    = sub_byte DQUOTE SQUOTE sep /\
  sub_byte SQUOTE DQUOTE (sub_byte SQUOTE DQUOTE sep)
    = sub_byte SQUOTE DQUOTE sep /\
  sub_byte SQUOTE DQUOTE (sub_byte DQUOTE SQUOTE sep)
    = sub_byte SQUOTE DQUOTE sep /\
  sub_byte DQUOTE SQUOTE (sub_byte SQUOTE DQUOTE sep)
    = sub_byte DQUOTE SQUOTE sep.
Proof.
  unfold sub_byte. rewrite !map_map.
  repeat split; apply map_ext; intros c;
    destruct (Byte.byte_eq_dec c DQUOTE) as [->|Hd]; try reflexivity;
    destruct (Byte.byte_eq_dec c SQUOTE) as [->|Hs]; try reflexivity;
    rewrite ?(byte_eqb_neq _ _ Hd), ?(byte_eqb_neq _ _ Hs);
    rewrite ?(byte_eqb_neq _ _ Hd), ?(byte_eqb_neq _ _ Hs); reflexivity.
Qed.

(** X15.  [get_page_separators] returns every separator found in the
    soup, without repetition, together with its writing with single quotes
    only and its writing with double quotes only, at most three writings
    for each; the list is closed under both rewritings, so both quotings
    of every separator it holds are searched. *)
Theorem get_page_separators_closed (page_separators : list bytes) :
  NoDup (get_page_separators page_separators) /\
  (forall sep, In sep page_separators ->
     In sep (get_page_separators page_separators)) /\
  (forall sep, In sep (get_page_separators page_separators) ->
     In (sub_byte DQUOTE SQUOTE sep) (get_page_separators page_separators) /\
     In (sub_byte SQUOTE DQUOTE sep) (get_page_separators page_separators)) /\
  length (get_page_separators page_separators) <= 3 * length page_separators.
Proof.
  split; [apply NoDup_nodup|].
  split; [intros sep Hin; apply (get_page_separators_In _ sep); auto|].
  split.
  - intros sep Hin. unfold get_page_separators in Hin.
    apply nodup_In, in_app_or in Hin.
    destruct (sub_byte_quotes sep) as (_ & _ & _ & _).
    destruct Hin as [Hin|Hin].
    + split; apply (get_page_separators_In _ sep); auto.
    + apply in_flat_map in Hin. destruct Hin as (p & Hp & Hv).
      destruct (sub_byte_quotes p) as (H1 & H2 & H3 & H4).
      destruct Hv as [<-|[<-|[]]].
      * rewrite H1, H3.
        split; apply (get_page_separators_In _ p); auto.
      * rewrite H4, H2.
        split; apply (get_page_separators_In _ p); auto.
  - unfold get_page_separators.
    eapply Nat.le_trans; [apply NoDup_incl_length;
                          [apply NoDup_nodup | intros x Hx;
                           apply nodup_In in Hx; exact Hx]|].
    rewrite length_app.
    assert (forall l : list bytes,
              length (flat_map (fun sep => [sub_byte DQUOTE SQUOTE sep;
                                            sub_byte SQUOTE DQUOTE sep]) l)
              = 2 * length l) as Hlen
      by (induction l as [|x l IH]; simpl; [reflexivity | rewrite IH; lia]).
    rewrite Hlen. lia.
Qed.

(** A separator written with double quotes: both writings are searched. *)
Lemma get_page_separators_closed_witness :
  In (b "<hr size='3'>")
     (get_page_separators [b "<hr size=" ++ [DQUOTE] ++ b "3" ++ [DQUOTE] ++ b ">"]).
Proof.
  apply (proj1 (proj1 (proj2 (proj2 (get_page_separators_closed
           [b "<hr size=" ++ [DQUOTE] ++ b "3" ++ [DQUOTE] ++ b ">"])))
           (b "<hr size=" ++ [DQUOTE] ++ b "3" ++ [DQUOTE] ++ b ">")
           (proj1 (proj2 (get_page_separators_closed
              [b "<hr size=" ++ [DQUOTE] ++ b "3" ++ [DQUOTE] ++ b ">"]))
              _ (or_introl eq_refl)))).
Defined.

(** ** What the loop over the rows keeps *)

Section Rows_invariant.
Context `{PyRuntime}.
Variable label : str -> str.


End Rows_invariant.



(** ** The pages that the legacy filter keeps *)

Lemma until_total_split (pages : list Page) :
  exists post,
    pages = until_total pages ++ post /\
    Forall (fun p => re_match Old.cmn (page_text p) = false)
      (removelast (until_total pages)).
Proof.
  induction pages as [|p rest IH].
  - exists []. split; [reflexivity | constructor].
  - cbn [until_total].
    destruct (re_match Old.cmn (page_text p)) eqn:Hp.
    + exists rest. split; [reflexivity | constructor].
    + destruct IH as (post & Heq & Hall). exists post. split.
      * simpl. rewrite <- Heq. reflexivity.
      * destruct (until_total rest) as [|q kept] eqn:Hk;
          [constructor|].
        change (removelast (p :: q :: kept))
          with (p :: removelast (q :: kept)).
        constructor; assumption.
Qed.

Lemma keep_pages_split (candidates : list Page) :
  exists pre rest,
    candidates = pre ++ rest /\
    Forall (fun q => Old.opens_schedule q = false) pre /\
    Old.keep_pages false candidates = until_total rest /\
    (forall p rest', rest = p :: rest' -> Old.opens_schedule p = true).
Proof.
  induction candidates as [|p tl IH].
  - exists [], []. repeat split; try constructor. discriminate.
  - destruct (Old.opens_schedule p) eqn:Hp.
    + exists [], (p :: tl). split; [reflexivity|]. split; [constructor|].
      split.
      * cbn [Old.keep_pages until_total]. rewrite Hp, keep_pages_stored.
        reflexivity.
      * intros p0 rest' [= <- _]. exact Hp.
    + destruct IH as (pre & rest & Heq & Hpre & Hkeep & Hhead).
      exists (p :: pre), rest. split; [simpl; rewrite Heq; reflexivity|].
      split; [constructor; assumption|]. split; [|exact Hhead].
      cbn [Old.keep_pages]. rewrite Hp. exact Hkeep.
Qed.

(** X17.  The pages that the legacy filter keeps are one run of
    consecutive candidate pages: none before the first page that opens the
    schedule, that page first, none skipped after it, and none after the
    first kept page whose text holds the grand total: only the last kept
    page can hold it. *)
Theorem legacy_kept_pages_are_a_run (candidates : list Page) :
  exists before after,
    candidates = before ++ Old.extract_pages candidates ++ after /\
    Forall (fun q => Old.opens_schedule q = false) before /\
    (forall p kept, Old.extract_pages candidates = p :: kept ->
       Old.opens_schedule p = true) /\
    Forall (fun p => re_match Old.cmn (page_text p) = false)
      (removelast (Old.extract_pages candidates)).
Proof.
  unfold Old.extract_pages.
  destruct (keep_pages_split candidates)
    as (pre & rest & Heq & Hpre & Hkeep & Hhead).
  destruct (until_total_split rest) as (post & Hrest & Hall).
  rewrite Hkeep. exists pre, post.
  split; [rewrite <- Hrest; exact Heq|]. split; [exact Hpre|].
  split; [|exact Hall].
  intros p kept Hk. destruct rest as [|p0 rest']; [discriminate|].
  cbn [until_total] in Hk. injection Hk as <- _.
  apply (Hhead p0 rest' eq_refl).
Qed.

(** A cover page before the page that opens the schedule. *)
Lemma legacy_kept_pages_are_a_run_witness :
  Old.opens_schedule schedule_page = true.
Proof.
  destruct (legacy_kept_pages_are_a_run [cover_page; schedule_page])
    as (before & after & _ & _ & Hfirst & _).
  apply (Hfirst schedule_page []). vm_compute. reflexivity.
Defined.

(** ** The heading of a column *)

Lemma gather_rows_blank (col : Column) :
  Forall (fun tr => nonempty tr = []) col -> gather_rows col = [ [] ].
Proof.
  unfold gather_rows. induction 1 as [|tr col Htr _ IH]; [reflexivity|].
  cbn [fold_left]. unfold add_tr at 2. cbn [last removelast app].
  rewrite Htr. exact IH.
Qed.

(** X18.  With the heading checked (always in the modern module, on the
    first page in the legacy one), [parse_holdings_column] returns only
    for a column whose first gathered row begins with the three cells
    [Security], [Shares] and [Value]; in a first column the row under it
    must be one single cell holding [common stocks]; these rows are not
    classified, the rows that follow are.  A table without any non-empty
    cell is an [IndexError] there, whereas with the heading not checked
    (later legacy pages) it is passed over and leaves the sector as it
    was. *)
Theorem column_heading_is_checked `{PyRuntime} (label : str -> str)
    (col : Column) (is_first_column : bool) (current_sector : option str) :
  (forall st,
     parse_holdings_column label col is_first_column current_sector true
       = OK st ->
     exists c0 c1 c2 more rest,
       gather_rows col = (c0 :: c1 :: c2 :: more) :: rest /\
       scrub_tag c0 = u "Security" /\
       scrub_tag c1 = u "Shares" /\
       scrub_tag c2 = u "Value" /\
       if is_first_column
       then exists c rest',
              rest = [c] :: rest' /\
              re_match re_common_stocks_header c = true /\
              classify_rows label (no_holdings current_sector) rest' = OK st
       else classify_rows label (no_holdings current_sector) rest = OK st) /\
  (Forall (fun tr => nonempty tr = []) col ->
   parse_holdings_column label col is_first_column current_sector true
     = Raise IndexError /\
   parse_holdings_column label col is_first_column current_sector false
     = OK (no_holdings current_sector)).
Proof.
  split.
  - intros st. unfold parse_holdings_column, check_heading.
    destruct (gather_rows col) as [|r0 rest]; [discriminate|].
    destruct r0 as [|c0 [|c1 [|c2 more]]]; cbn [index nth_error bind];
      try discriminate.
    + destruct (str_eqb (scrub_tag c0) (u "Security")); discriminate.
    + destruct (str_eqb (scrub_tag c0) (u "Security"));
        [|discriminate]; cbn [assert bind].
      destruct (str_eqb (scrub_tag c1) (u "Shares")); discriminate.
    + destruct (str_eqb (scrub_tag c0) (u "Security")) eqn:H0;
        [|discriminate]; cbn [assert bind].
      destruct (str_eqb (scrub_tag c1) (u "Shares")) eqn:H1;
        [|discriminate]; cbn [assert bind].
      destruct (str_eqb (scrub_tag c2) (u "Value")) eqn:H2;
        [|discriminate]; cbn [assert bind].
      apply str_eqb_eq in H0, H1, H2.
      intros Hst. exists c0, c1, c2, more, rest.
      repeat (split; [first [reflexivity | assumption]|]).
      destruct is_first_column; cbn [andb] in Hst.
      * unfold check_common_stocks in Hst. cbn [index nth_error bind] in Hst.
        destruct rest as [|r1 rest']; [discriminate|].
        cbn [bind] in Hst.
        destruct r1 as [|c [|c' r1]]; cbn [length Nat.eqb assert bind] in Hst;
          try discriminate.
        cbn [index nth_error bind] in Hst.
        destruct (re_match re_common_stocks_header c) eqn:Hc;
          [|discriminate].
        cbn [assert bind skipn] in Hst.
        exists c, rest'. repeat split; assumption.
      * cbn [bind skipn] in Hst. exact Hst.
  - intros Hblank. unfold parse_holdings_column.
    rewrite (gather_rows_blank col Hblank). split.
    + reflexivity.
    + rewrite andb_false_r. reflexivity.
Qed.

(** The first column of the first page of a filing. *)
Lemma column_heading_is_checked_witness :
  exists c0 c1 c2 more rest,
    gather_rows (technology_column "50,000") = (c0 :: c1 :: c2 :: more) :: rest /\
    scrub_tag c0 = u "Security" /\
    scrub_tag c1 = u "Shares" /\
    scrub_tag c2 = u "Value".
Proof.
  destruct (proj1 (column_heading_is_checked (replace [X97] (u "---"))
                     (technology_column "50,000") true None)
              {| HOLDINGS := [acme];
                 SECTOR_TOTALS := [(u "Technology", Some 50000%Z)];
                 HIT_TOTAL_COMMON_STOCKS := false;
                 CURRENT_SECTOR := Some (u "Technology") |})
    as (c0 & c1 & c2 & more & rest & Hrows & H0 & H1 & H2 & _).
  - vm_compute. reflexivity.
  - exists c0, c1, c2, more, rest. auto.
Defined.
